(** * sktime: the dtw-python aligner adapters and the classification result collator

    A shallow embedding of
      - [sktime/alignment/dtw_python.py]  (classes [AlignerDTW], [AlignerDTWdist])
      - [sktime/contrib/result_collator/classification_results_collator.py]
        ([get_enum_from_url], class [ClassificationResultCollator])
    together with the properties stated about them.

    Python statements that mutate an object or touch the network are written
    in a state-and-exception monad: a raised exception keeps every mutation
    made before it, as in Python. *)

From Stdlib Require Import ZArith List Bool Ascii String Lia.
From stdpp Require Import base option list strings pretty gmap.

Local Open Scope string_scope.
Local Open Scope Z_scope.

(* ===================================================================== *)
(** ** Python values, exceptions and string built-ins                      *)
(* ===================================================================== *)

Module Py.

(** The exceptions the two modules can raise.  [OtherError] stands for what
    the transport layer raises ([requests] failures, JSON decoding). *)
Inductive exn : Type :=
  | TypeError (msg : string)
  | ValueError (msg : string)
  | KeyError (key : string)
  | IndexError (msg : string)
  | AttributeError (name : string)
  | OtherError (msg : string).

Definition exn_msg (e : exn) : string :=
  match e with
  | TypeError m | ValueError m | KeyError m
  | IndexError m | AttributeError m | OtherError m => m
  end.

Definition is_TypeError (e : exn) : bool :=
  match e with TypeError _ => true | _ => false end.

Definition is_ValueError (e : exn) : bool :=
  match e with ValueError _ => true | _ => false end.

(** The configuration values that occur in the two modules: [None], bools,
    ints, strings and lists of them. *)
#[warnings="-register-all"]
Inductive pyval : Type :=
  | PNone
  | PBool (b : bool)
  | PInt (z : Z)
  | PStr (s : string)
  | PList (l : list pyval).

(** [a == b] on these values; [True == 1] and [False == 0] hold in Python. *)
Fixpoint py_eqb (a b : pyval) {struct a} : bool :=
  match a, b with
  | PNone, PNone => true
  | PBool x, PBool y => Bool.eqb x y
  | PBool x, PInt y | PInt y, PBool x => Z.eqb (Z.b2z x) y
  | PInt x, PInt y => Z.eqb x y
  | PStr s, PStr t => String.eqb s t
  | PList l, PList m =>
      (fix all2 (l : list pyval) (m : list pyval) {struct l} : bool :=
         match l, m with
         | [], [] => true
         | x :: l', y :: m' => py_eqb x y && all2 l' m'
         | _, _ => false
         end) l m
  | _, _ => false
  end.

(** [v in lst] for a Python list [lst]. *)
Definition py_in (v : pyval) (lst : list pyval) : bool :=
  existsb (py_eqb v) lst.

(** [sub in s] for two strings: substring containment. *)
Fixpoint str_contains (sub s : string) : bool :=
  String.prefix sub s ||
  match s with
  | EmptyString => false
  | String _ s' => str_contains sub s'
  end.

(** *** [repr] of a string (code points below 256). *)

Definition hex_digit (n : N) : ascii :=
  ascii_of_N (if (n <? 10)%N then 48 + n else 87 + n)%N.

Definition printable (c : ascii) : bool :=
  let n := N_of_ascii c in
  ((32 <=? n) && (n <=? 126) || (161 <=? n) && negb (n =? 173))%N.

Definition repr_char (quote c : ascii) : string :=
  if Ascii.eqb c "\" then "\\"
  else if Ascii.eqb c quote then String "\" (String quote "")
  else if Ascii.eqb c "010" then "\n"
  else if Ascii.eqb c "013" then "\r"
  else if Ascii.eqb c "009" then "\t"
  else if printable c then String c ""
  else let n := N_of_ascii c in
       String "\" (String "x" (String (hex_digit (n / 16)) (String (hex_digit (n mod 16)) ""))).

Fixpoint repr_chars (quote : ascii) (s : string) : string :=
  match s with
  | EmptyString => ""
  | String c s' => repr_char quote c ++ repr_chars quote s'
  end.

Definition dquote : ascii := "034"%char.

Definition str_repr (s : string) : string :=
  let quote : ascii :=
    if str_contains "'" s && negb (str_contains (String dquote "") s)
    then dquote else "'"%char in
  String quote (repr_chars quote s ++ String quote "").

(** [repr(v)]; a list prints its elements' [repr] between brackets. *)
Fixpoint py_repr (v : pyval) : string :=
  match v with
  | PNone => "None"
  | PBool b => if b then "True" else "False"
  | PInt z => pretty z
  | PStr s => str_repr s
  | PList l =>
      "[" ++
      (fix elems (l : list pyval) : string :=
         match l with
         | [] => ""
         | [x] => py_repr x
         | x :: l' => py_repr x ++ ", " ++ elems l'
         end) l
      ++ "]"
  end.

(** [str(v)], which is what an f-string placeholder [{v}] inserts. *)
Definition py_str (v : pyval) : string :=
  match v with
  | PStr s => s
  | _ => py_repr v
  end.

(** *** The state-and-exception monad. *)

Definition M (S A : Type) : Type := S -> (exn + A) * S.

Definition ret {S A} (a : A) : M S A := fun s => (inr a, s).
Definition raise {S A} (e : exn) : M S A := fun s => (inl e, s).
Definition bind {S A B} (m : M S A) (k : A -> M S B) : M S B :=
  fun s => match m s with
           | (inl e, s') => (inl e, s')
           | (inr a, s') => k a s'
           end.
Definition get {S} : M S S := fun s => (inr s, s).
Definition put {S} (s : S) : M S unit := fun _ => (inr tt, s).
Definition modify {S} (f : S -> S) : M S unit := fun s => (inr tt, f s).
(** A computation that can only raise or return. *)
Definition lift {S A} (r : exn + A) : M S A := fun s => (r, s).

(** [for x in l: body x]. *)
Fixpoint for_each {S A} (l : list A) (body : A -> M S unit) : M S unit :=
  match l with
  | [] => ret tt
  | x :: l' => bind (body x) (fun _ => for_each l' body)
  end.

Definition raised {A S} (r : (exn + A) * S) : bool :=
  match fst r with inl _ => true | inr _ => false end.

End Py.

Import Py.

#[global] Instance M_ret {S} : MRet (M S) := fun _ a => ret a.
#[global] Instance M_bind {S} : MBind (M S) := fun _ _ k m => bind m k.

(* ===================================================================== *)
(** ** dtw_python.py                                                       *)
(* ===================================================================== *)

Module Aligner.

(** A method [m] of a class [C] is written [C_m].

    The classes of the module and their place under [BaseAligner]. *)
Inductive class : Type := BaseAligner | AlignerDTW | AlignerDTWdist.

Definition class_eqb (a b : class) : bool :=
  match a, b with
  | BaseAligner, BaseAligner | AlignerDTW, AlignerDTW
  | AlignerDTWdist, AlignerDTWdist => true
  | _, _ => false
  end.

(** The method resolution order, as far as the module's own classes go:
    [class AlignerDTW(BaseAligner)], [class AlignerDTWdist(BaseAligner)].
    What lies above [BaseAligner] was defined before this module, so neither
    adapter occurs there. *)
Definition mro (c : class) : list class :=
  match c with
  | BaseAligner => [BaseAligner]
  | AlignerDTW => [AlignerDTW; BaseAligner]
  | AlignerDTWdist => [AlignerDTWdist; BaseAligner]
  end.

(** [isinstance(obj, t)] for an object whose class is [c]. *)
Definition isinstance (c t : class) : bool := existsb (class_eqb t) (mro c).

Definition msg_super : string :=
  "super(type, obj): obj must be an instance or subtype of type".

Section Engine.

(** The numbers of the observations and of the distances (floats), and the
    float [0.0] of [np.zeros]. *)
Context {num : Type}.
Variable zero : num.

(** A [pd.DataFrame]: its columns in order, each a label and its values.
    A label that occurs twice makes [X[label]] two-dimensional. *)
Definition data_frame : Type := list (pyval * list num).

Inductive ndarray : Type :=
  | Array1 (v : list num)
  | Array2 (lines : list (list num)).

(** [X.columns.values[0]] *)
Definition first_column (X : data_frame) : exn + pyval :=
  match X with
  | [] => inl (IndexError "index 0 is out of bounds for axis 0 with size 0")
  | (label, _) :: _ => inr label
  end.

(** [label in X.columns.values] *)
Definition has_column (label : pyval) (X : data_frame) : bool :=
  existsb (fun c => py_eqb label (fst c)) X.

(** [X[label].values] *)
Definition column_values (X : data_frame) (label : pyval) : exn + ndarray :=
  match List.filter (fun c => py_eqb label (fst c)) X with
  | [] => inl (KeyError (py_repr label))
  | [c] => inr (Array1 (snd c))
  | cs => inr (Array2 (map snd cs))
  end.

(** What the adapters read of the object [dtw] returns. *)
Record dtw_result : Type := DtwResult {
  index1 : list Z;
  index2 : list Z;
  distance : num
}.

(** The arguments of one call of [dtw]; [y] and [dist_method] are absent
    when a distance matrix is passed. *)
Record dtw_args : Type := DtwArgs {
  arg_x : ndarray;
  arg_y : option ndarray;
  arg_dist_method : option pyval;
  arg_step_pattern : pyval;
  arg_window_type : pyval;
  arg_open_begin : pyval;
  arg_open_end : pyval;
  arg_keep_internals : bool
}.

(** A pairwise transformer: called on the two sequences, it gives their
    distance matrix or raises. *)
Definition trafo : Type := data_frame -> data_frame -> exn + ndarray.

(** The attributes of an aligner object; [None] is an attribute that has
    not been set. *)
Record aligner : Type := Aligner {
  dist_trafo : option trafo;
  dist_method : option pyval;
  step_pattern : option pyval;
  window_type : option pyval;
  open_begin : option pyval;
  open_end : option pyval;
  variable_to_align : option pyval;
  alignment : option dtw_result;
  X : option (list data_frame)
}.

(** The object [object.__new__] hands to [__init__]. *)
Definition blank : aligner := Aligner None None None None None None None None None.

(** A method runs on its object; the calls of the engine are recorded. *)
Record state : Type := State { self : aligner; dtw_calls : list dtw_args }.

(** The external engine [dtw.dtw] and the constructor of the base class
    (sktime/alignment/_base.py, not among the sources). *)
Variable dtw : dtw_args -> exn + dtw_result.
Variable BaseAligner___init__ : M state unit.

Definition assign (f : aligner -> aligner) : M state unit :=
  modify (fun s => State (f (self s)) (dtw_calls s)).

(** [self.name], raising [AttributeError] when it has not been set. *)
Definition attr {A} (name : string) (f : aligner -> option A) : M state A :=
  fun s => match f (self s) with
           | Some v => (inr v, s)
           | None => (inl (AttributeError name), s)
           end.

Definition call_dtw (a : dtw_args) : M state dtw_result :=
  fun s => (dtw a, State (self s) (dtw_calls s ++ [a])%list).

(** [X[i]] on a list. *)
Definition item {A} (l : list A) (i : nat) : exn + A :=
  match l !! i with
  | Some x => inr x
  | None => inl (IndexError "list index out of range")
  end.

Definition set_dist_trafo v (a : aligner) :=
  Aligner (Some v) (dist_method a) (step_pattern a) (window_type a) (open_begin a)
    (open_end a) (variable_to_align a) (alignment a) (X a).
Definition set_dist_method v (a : aligner) :=
  Aligner (dist_trafo a) (Some v) (step_pattern a) (window_type a) (open_begin a)
    (open_end a) (variable_to_align a) (alignment a) (X a).
Definition set_step_pattern v (a : aligner) :=
  Aligner (dist_trafo a) (dist_method a) (Some v) (window_type a) (open_begin a)
    (open_end a) (variable_to_align a) (alignment a) (X a).
Definition set_window_type v (a : aligner) :=
  Aligner (dist_trafo a) (dist_method a) (step_pattern a) (Some v) (open_begin a)
    (open_end a) (variable_to_align a) (alignment a) (X a).
Definition set_open_begin v (a : aligner) :=
  Aligner (dist_trafo a) (dist_method a) (step_pattern a) (window_type a) (Some v)
    (open_end a) (variable_to_align a) (alignment a) (X a).
Definition set_open_end v (a : aligner) :=
  Aligner (dist_trafo a) (dist_method a) (step_pattern a) (window_type a) (open_begin a)
    (Some v) (variable_to_align a) (alignment a) (X a).
Definition set_variable_to_align v (a : aligner) :=
  Aligner (dist_trafo a) (dist_method a) (step_pattern a) (window_type a) (open_begin a)
    (open_end a) (Some v) (alignment a) (X a).
Definition set_alignment v (a : aligner) :=
  Aligner (dist_trafo a) (dist_method a) (step_pattern a) (window_type a) (open_begin a)
    (open_end a) (variable_to_align a) (Some v) (X a).
Definition set_X v (a : aligner) :=
  Aligner (dist_trafo a) (dist_method a) (step_pattern a) (window_type a) (open_begin a)
    (open_end a) (variable_to_align a) (alignment a) (Some v).

(** [super(t, self).__init__()] on an object of class [c]: [super] checks
    [isinstance(self, t)]; the class after either adapter in the order is
    [BaseAligner]. *)
Definition super_init (t c : class) : M state unit :=
  if isinstance c t then
    match t with
    | AlignerDTW | AlignerDTWdist => BaseAligner___init__
    | BaseAligner => ret tt
    end
  else raise (TypeError msg_super).

(** *** class AlignerDTW *)

(** The keyword arguments of [AlignerDTW.__init__]. *)
Record dtw_config : Type := DtwConfig {
  cfg_dist_method : pyval;
  cfg_step_pattern : pyval;
  cfg_window_type : pyval;
  cfg_open_begin : pyval;
  cfg_open_end : pyval;
  cfg_variable_to_align : pyval
}.

(** The defaults of the signature. *)
Definition dtw_defaults : dtw_config :=
  DtwConfig (PStr "euclidean") (PStr "symmetric2") (PStr "none")
    (PBool false) (PBool false) PNone.

(** [AlignerDTW.__init__] on an object of class [c]. *)
Definition AlignerDTW___init__ (c : class) (cfg : dtw_config) : M state unit :=
  super_init AlignerDTWdist c;;
  assign (set_dist_method (cfg_dist_method cfg));;
  assign (set_step_pattern (cfg_step_pattern cfg));;
  assign (set_window_type (cfg_window_type cfg));;
  assign (set_open_begin (cfg_open_begin cfg));;
  assign (set_open_end (cfg_open_end cfg));;
  assign (set_variable_to_align (cfg_variable_to_align cfg)).

(** The expression [AlignerDTW(...)]: [__init__] on a new object of the class. *)
Definition new_AlignerDTW (cfg : dtw_config) : M state unit :=
  assign (fun _ => blank);;
  AlignerDTW___init__ AlignerDTW cfg.

Definition msg_no_variable (which : string) (var_to_align : pyval) : string :=
  which ++ " does not have variable " ++ py_str var_to_align ++ " used for alignment".

(** [AlignerDTW._fit] *)
Definition AlignerDTW__fit (Xs : list data_frame) : M state unit :=
  (* these variables from self are accessed *)
  dist_method ← attr "dist_method" dist_method;
  step_pattern ← attr "step_pattern" step_pattern;
  window_type ← attr "window_type" window_type;
  open_begin ← attr "open_begin" open_begin;
  open_end ← attr "open_end" open_end;
  (* shorthands for 1st and 2nd sequence *)
  X1 ← lift (item Xs 0);
  X2 ← lift (item Xs 1);
  (* retrieve column to align from data frames, convert to np.array *)
  var_to_align ← attr "variable_to_align" variable_to_align;
  var_to_align ← match var_to_align with
                 | PNone => lift (first_column X1)
                 | _ => ret var_to_align
                 end;
  (if negb (has_column var_to_align X1)
   then raise (ValueError (msg_no_variable "X[0]" var_to_align))
   else ret tt);;
  (if negb (has_column var_to_align X2)
   then raise (ValueError (msg_no_variable "X[1]" var_to_align))
   else ret tt);;
  X1vec ← lift (column_values X1 var_to_align);
  X2vec ← lift (column_values X2 var_to_align);
  (* pass to the interfaced dtw function and store to self *)
  alignment ← call_dtw (DtwArgs X1vec (Some X2vec) (Some dist_method) step_pattern
                          window_type open_begin open_end true);
  assign (set_alignment alignment);;
  assign (set_X Xs);;
  assign (set_variable_to_align var_to_align).

(** [pd.DataFrame({"ind0": a, "ind1": b})]: the two columns must have the
    same length. *)
Definition align_table : Type := list (string * list Z).

Definition align_frame (a b : list Z) : exn + align_table :=
  if Nat.eqb (length a) (length b)
  then inr [("ind0", a); ("ind1", b)]
  else inl (ValueError "All arrays must be of the same length").

(** [distmat[i, j] = v] on a two-dimensional array. *)
Definition setitem2 (i j : nat) (v : num) (m : list (list num)) : list (list num) :=
  alter (fun row => <[j := v]> row) i m.

(** [np.zeros((2, 2), dtype="float")] *)
Definition zeros22 : list (list num) := [[zero; zero]; [zero; zero]].

Definition AlignerDTW_get_alignment : M state align_table :=
  alignment ← attr "alignment" alignment;
  lift (align_frame (index1 alignment) (index2 alignment)).

Definition AlignerDTW_get_distance : M state num :=
  alignment ← attr "alignment" alignment;
  ret (distance alignment).

Definition AlignerDTW_get_distance_matrix : M state (list (list num)) :=
  let distmat := zeros22 in
  a ← attr "alignment" alignment;
  let distmat := setitem2 0 1 (distance a) distmat in
  a ← attr "alignment" alignment;
  let distmat := setitem2 1 0 (distance a) distmat in
  ret distmat.

(** *** class AlignerDTWdist *)

Record dist_config : Type := DistConfig {
  dcfg_dist_trafo : option trafo;
  dcfg_step_pattern : pyval;
  dcfg_window_type : pyval;
  dcfg_open_begin : pyval;
  dcfg_open_end : pyval
}.

Definition dist_defaults : dist_config :=
  DistConfig None (PStr "symmetric2") (PStr "none") (PBool false) (PBool false).

(** [AlignerDTWdist.__init__] on an object of class [c]. *)
Definition AlignerDTWdist___init__ (c : class) (cfg : dist_config) : M state unit :=
  super_init AlignerDTWdist c;;
  match dcfg_dist_trafo cfg with
  | None => raise (ValueError "No component dist_trafo provided")
  | Some dist_trafo => assign (set_dist_trafo dist_trafo)
  end;;
  assign (set_step_pattern (dcfg_step_pattern cfg));;
  assign (set_window_type (dcfg_window_type cfg));;
  assign (set_open_begin (dcfg_open_begin cfg));;
  assign (set_open_end (dcfg_open_end cfg)).

Definition new_AlignerDTWdist (cfg : dist_config) : M state unit :=
  assign (fun _ => blank);;
  AlignerDTWdist___init__ AlignerDTWdist cfg.

(** [AlignerDTWdist._fit] *)
Definition AlignerDTWdist__fit (Xs : list data_frame) : M state unit :=
  dist_trafo ← attr "dist_trafo" dist_trafo;
  step_pattern ← attr "step_pattern" step_pattern;
  window_type ← attr "window_type" window_type;
  open_begin ← attr "open_begin" open_begin;
  open_end ← attr "open_end" open_end;
  X1 ← lift (item Xs 0);
  X2 ← lift (item Xs 1);
  (* compute distance matrix using cdist *)
  distmat ← lift (dist_trafo X1 X2);
  alignment ← call_dtw (DtwArgs distmat None None step_pattern window_type
                          open_begin open_end true);
  assign (set_alignment alignment);;
  assign (set_X Xs).

Definition AlignerDTWdist_get_alignment : M state align_table :=
  alignment ← attr "alignment" alignment;
  lift (align_frame (index1 alignment) (index2 alignment)).

Definition AlignerDTWdist_get_distance : M state num :=
  alignment ← attr "alignment" alignment;
  ret (distance alignment).

Definition AlignerDTWdist_get_distance_matrix : M state (list (list num)) :=
  let distmat := zeros22 in
  a ← attr "alignment" alignment;
  let distmat := setitem2 0 1 (distance a) distmat in
  a ← attr "alignment" alignment;
  let distmat := setitem2 1 0 (distance a) distmat in
  ret distmat.

(** The object as the six assignments of [AlignerDTW.__init__] leave it. *)
Definition configure (cfg : dtw_config) (a : aligner) : aligner :=
  set_variable_to_align (cfg_variable_to_align cfg)
    (set_open_end (cfg_open_end cfg)
       (set_open_begin (cfg_open_begin cfg)
          (set_window_type (cfg_window_type cfg)
             (set_step_pattern (cfg_step_pattern cfg)
                (set_dist_method (cfg_dist_method cfg) a))))).

(** The object as the five assignments of [AlignerDTWdist.__init__] leave
    it, for a transformer [f]. *)
Definition configure_dist (cfg : dist_config) (f : trafo) (a : aligner)
  : aligner :=
  set_open_end (dcfg_open_end cfg)
    (set_open_begin (dcfg_open_begin cfg)
       (set_window_type (dcfg_window_type cfg)
          (set_step_pattern (dcfg_step_pattern cfg) (set_dist_trafo f a)))).

(** The test [0.0 <= d] on the numbers. *)
Variable nonneg : num -> bool.


End Engine.

Arguments data_frame : clear implicits.
Arguments ndarray : clear implicits.
Arguments dtw_result : clear implicits.
Arguments dtw_args : clear implicits.
Arguments trafo : clear implicits.
Arguments aligner : clear implicits.
Arguments state : clear implicits.
Arguments dist_config : clear implicits.

(** *** An engine and two pairs of sequences to run the adapters on *)

(** Pairs two vectors of the same length position by position; the distance
    is the sum of the absolute differences. *)
Definition lockstep_dtw (a : dtw_args Z) : exn + dtw_result Z :=
  match arg_x a, arg_y a with
  | Array1 x, Some (Array1 y) =>
      if Nat.eqb (length x) (length y) && negb (Nat.eqb (length x) 0)
      then inr (DtwResult (map Z.of_nat (seq 0 (length x)))
                          (map Z.of_nat (seq 0 (length y)))
                          (foldr Z.add 0 (zip_with (fun u v => Z.abs (u - v)) x y)))
      else inl (ValueError "No warping path found compatible with the local constraints")
  | _, _ => inl (ValueError "unsupported input")
  end.

(** A transformer and an engine for distance matrices, both constant. *)
Definition unit_trafo : trafo Z := fun _ _ => inr (Array2 [[0; 1]; [1; 0]]).
Definition const_dtw (a : dtw_args Z) : exn + dtw_result Z :=
  inr (DtwResult [0; 1] [0; 1] 0).

(** A base constructor that sets nothing. *)
Definition plain_init : M (state Z) unit := ret tt.

Definition seq_ab : data_frame Z := [(PStr "a", [1; 2; 4]); (PStr "b", [3; 3; 3])].
Definition seq_b : data_frame Z := [(PStr "b", [3; 5; 2])].
Definition seq_ba : data_frame Z := [(PStr "b", [3; 5; 2]); (PStr "a", [0; 2; 5])].

(** An object that holds the alignment of an earlier fit. *)
Definition fitted_state : state Z :=
  State (set_alignment (DtwResult [0; 1; 2] [0; 1; 2] 2) (configure dtw_defaults blank)) [].

End Aligner.

(* ===================================================================== *)
(** ** classification_results_collator.py                                  *)
(* ===================================================================== *)

Module Collator.

(** Request urls *)
Definition PROBLEM_REQUEST_URL : string :=
  "https://timeseriesclassification.com/JSON/datasetTable.json?order=asc".
Definition CLASSIFIERS_REQUEST_URL : string :=
  "https://timeseriesclassification.com/JSON/algorithmTable.json?order=asc".

(** One element of the JSON array an enumeration endpoint serves
    ([TSClassProblemDict], [TSClassClassifiersDict]): a dict from field name
    to value; the TypedDicts are declared [total=False], so a key may be
    missing. *)
Abbreviation record := (gmap string pyval).

(** What [requests.get(url)] gives back: [.json()] parses the body or
    raises, [.text] is the body. *)
Record response : Type := Response {
  resp_json : exn + list record;
  resp_text : string
}.

(** The part of the process the module touches: the urls requested so far
    (oldest first) and the memo table of [@lru_cache(maxsize=None)]. *)
Record world : Type := World {
  fetch_log : list string;
  enum_cache : gmap (string * string) (list pyval)
}.

Definition world0 : world := World [] ∅.

Section Network.

(** The network: the answer to a request may depend on the requests made
    before it; [inl] is a transport failure. *)
Variable net : list string -> string -> exn + response.

Definition requests_get (url : string) : M world response :=
  fun w => (net (fetch_log w) url,
            World (fetch_log w ++ [url])%list (enum_cache w)).

(** [for response in responses: enum_arr.append(response[key])] *)
Fixpoint collect (key : string) (responses : list record) (enum_arr : list pyval)
  : exn + list pyval :=
  match responses with
  | [] => inr enum_arr
  | response :: rest =>
      match response !! key with
      | Some v => collect key rest (enum_arr ++ [v])%list
      | None => inl (KeyError key)
      end
  end.

(** The undecorated body of [get_enum_from_url]. *)
Definition get_enum_body (url key : string) : M world (list pyval) :=
  r ← requests_get url;
  responses ← lift (resp_json r);
  lift (collect key responses []).

(** [get_enum_from_url] under [@lru_cache(maxsize=None)]: a hit returns the
    stored result; a miss runs the body and stores its result only when it
    returns. *)
Definition get_enum_from_url (url key : string) : M world (list pyval) :=
  w ← get;
  match enum_cache w !! (url, key) with
  | Some enum_arr => ret enum_arr
  | None =>
      enum_arr ← get_enum_body url key;
      modify (fun w => World (fetch_log w) (<[(url, key) := enum_arr]> (enum_cache w)));;
      ret enum_arr
  end.

(** The class attributes of [ClassificationResultCollator]. *)
Record class_consts : Type := ClassConsts {
  VALID_TOOLKITS : list pyval;
  VALID_METRICS : list pyval;
  VALID_CLASSIFIERS : list pyval;
  VALID_PROBLEMS : list pyval;
  VALID_DOMAIN : string
}.

(** The class body, executed once when the module is imported. *)
Definition class_body : M world class_consts :=
  valid_classifiers ← get_enum_from_url CLASSIFIERS_REQUEST_URL "Acronym";
  valid_problems ← get_enum_from_url PROBLEM_REQUEST_URL "Dataset";
  ret (ClassConsts [PStr "sktime"; PStr "tsml"] [PStr "accuracy"; PStr "f1"]
         valid_classifiers valid_problems
         "https://timeseriesclassification.com").

(** *** [_check_valid_parameters] *)

Definition msg_none (parameter_name : string) : string :=
  "The parameter " ++ parameter_name ++ " cannot be None".

Definition msg_invalid (parameter_name : string) (value : pyval)
    (valid_list : list pyval) : string :=
  "The parameter " ++ parameter_name ++ " of value " ++ py_str value
  ++ " is invalid. " ++ "Please use a value from " ++ py_str (PList valid_list).

(** The inner function [check(value)]. *)
Definition check (valid_list : list pyval) (parameter_name : string)
    (value : pyval) : exn + unit :=
  match value with
  | PNone => inl (TypeError (msg_none parameter_name))
  | _ =>
      if negb (py_in value valid_list)
      then inl (TypeError (msg_invalid parameter_name value valid_list))
      else inr tt
  end.

(** [for val in check_values: check(val)] *)
Fixpoint check_each (valid_list : list pyval) (parameter_name : string)
    (vals : list pyval) : exn + unit :=
  match vals with
  | [] => inr tt
  | val :: rest =>
      match check valid_list parameter_name val with
      | inl e => inl e
      | inr _ => check_each valid_list parameter_name rest
      end
  end.

(** What the [for] statement raises on a value that is not iterable. *)
Definition msg_not_iterable (type_name : string) : string :=
  "'" ++ type_name ++ "' object is not iterable".

(** The static method.  [check_values is "*"] is written as string
    equality: CPython keeps one object per one-character Latin-1 string. *)
Definition _check_valid_parameters (check_values : pyval)
    (valid_list : list pyval) (parameter_name : string) : exn + pyval :=
  match check_values with
  | PStr s =>
      if String.eqb s "*" then inr (PList valid_list)
      else match check valid_list parameter_name check_values with
           | inl e => inl e
           | inr _ => inr check_values
           end
  | PList vals =>
      match check_each valid_list parameter_name vals with
      | inl e => inl e
      | inr _ => inr check_values
      end
  | PNone => inl (TypeError (msg_not_iterable "NoneType"))
  | PBool _ => inl (TypeError (msg_not_iterable "bool"))
  | PInt _ => inl (TypeError (msg_not_iterable "int"))
  end.

(** *** The collator object *)

(** The attributes of a [ClassificationResultCollator]; [urls] is the one
    the base class keeps. *)
Record collator : Type := Collator {
  urls : list string;
  classifiers : pyval;
  problem_list : pyval;
  metric : pyval;
  resamples : Z;
  toolkit : pyval;
  _classifiers : pyval;
  _problem_list : pyval
}.

(** [__init__], with the defaults of the signature given by [None]. *)
Definition __init__ (urls : list string) (classifiers problem_list metric : option pyval)
    (resamples : option Z) (toolkit : option pyval) : collator :=
  Collator urls
    (default (PStr "*") classifiers)
    (default (PStr "*") problem_list)
    (default (PStr "accuracy") metric)
    (default 1 resamples)
    (default (PStr "sktime") toolkit)
    (PList []) (PList []).

Definition set__classifiers (v : pyval) (c : collator) : collator :=
  Collator (urls c) (classifiers c) (problem_list c) (metric c) (resamples c)
    (toolkit c) v (_problem_list c).
Definition set__problem_list (v : pyval) (c : collator) : collator :=
  Collator (urls c) (classifiers c) (problem_list c) (metric c) (resamples c)
    (toolkit c) (_classifiers c) v.
Definition set_toolkit (v : pyval) (c : collator) : collator :=
  Collator (urls c) (classifiers c) (problem_list c) (metric c) (resamples c)
    v (_classifiers c) (_problem_list c).

(** A method runs on its object and on the world. *)
Record state : Type := State { self : collator; wd : world }.

Definition read {A} (f : collator -> A) : M state A :=
  fun s => (inr (f (self s)), s).
Definition assign (f : collator -> collator) : M state unit :=
  modify (fun s => State (f (self s)) (wd s)).
Definition in_world {A} (m : M world A) : M state A :=
  fun s => let (r, w) := m (wd s) in (r, State (self s) w).

(** [_format_result]: [x.split(",")] for each [x] of [response.split("\n")];
    [pd.DataFrame] of the rows fills the short ones with [None]. *)
Fixpoint split (sep : ascii) (s : string) : list string :=
  match s with
  | EmptyString => [""]
  | String c s' =>
      if Ascii.eqb c sep then "" :: split sep s'
      else match split sep s' with
           | h :: t => String c h :: t
           | [] => [String c ""]
           end
  end.

Definition table : Type := list (list (option string)).

Definition data_frame (rows : list (list string)) : table :=
  let width := foldr (fun r w => Nat.max (length r) w) 0%nat rows in
  map (fun r => (map Some r ++ replicate (width - length r) None)%list) rows.

Definition _format_result (response : string) : table :=
  data_frame (map (split ",") (split "010" response)).

(** Modelled from the spec: [ResultCollator.get_results] of the base class
    (sktime/contrib/result_collator, not among the sources): one fetch per
    configured url, in order, each raw text response handed to
    [_format_result]; a failing fetch propagates. *)
Fixpoint ResultCollator_get_results_loop (todo : list string) (results : list table)
  : M state (list table) :=
  match todo with
  | [] => ret results
  | url :: rest =>
      r ← in_world (requests_get url);
      ResultCollator_get_results_loop rest (results ++ [_format_result (resp_text r)])%list
  end.

Definition ResultCollator_get_results : M state (list table) :=
  us ← read urls;
  ResultCollator_get_results_loop us [].

(** *** [get_results] *)

Definition msg_url (K : class_consts) (url : string) : string :=
  "The url " ++ url ++ " is invalid. Please use a url "
  ++ "from the domain " ++ VALID_DOMAIN K.

Definition msg_resamples (metric : pyval) : string :=
  "The number of resamples " ++ py_str metric ++ " is invalid. "
  ++ "The number of resamples must be between 1 and 30".

(** The body of the first loop of [get_results]. *)
Definition check_domain (K : class_consts) (url : string) : M state unit :=
  if negb (str_contains (VALID_DOMAIN K) url)
  then raise (TypeError (msg_url K url))
  else ret tt.

Definition get_results (K : class_consts) : M state (list table) :=
  (* Check domain is valid *)
  us ← read urls;
  for_each us (check_domain K);;
  (* Check classifiers are valid *)
  cl ← read classifiers;
  v ← lift (_check_valid_parameters cl (VALID_CLASSIFIERS K) "classifier");
  assign (set__classifiers v);;
  (* Check problems requested are valid *)
  pl ← read problem_list;
  v ← lift (_check_valid_parameters pl (VALID_PROBLEMS K) "problem");
  assign (set__problem_list v);;
  (* Check metric is valid *)
  me ← read metric;
  _ ← lift (_check_valid_parameters me (VALID_METRICS K) "metric");
  (* Check resamples is valid *)
  rs ← read resamples;
  (if (rs <? 1) || (rs >? 30)
   then me ← read metric; raise (TypeError (msg_resamples me))
   else ret tt);;
  (* Check toolkit is valid *)
  tk ← read toolkit;
  v ← lift (_check_valid_parameters tk (VALID_TOOLKITS K) "toolkit");
  assign (set_toolkit v);;
  ResultCollator_get_results.

(** *** The checks of [get_results], one by one

    Each check is computed on the collator as it was configured; they are
    put side by side with the method in [get_results_order]. *)

Definition url_violation (K : class_consts) (us : list string) : option exn :=
  match List.find (fun url => negb (str_contains (VALID_DOMAIN K) url)) us with
  | Some url => Some (TypeError (msg_url K url))
  | None => None
  end.

Definition parameter_violation (check_values : pyval) (valid_list : list pyval)
    (parameter_name : string) : option exn :=
  match _check_valid_parameters check_values valid_list parameter_name with
  | inl e => Some e
  | inr _ => None
  end.

Definition resamples_violation (c : collator) : option exn :=
  if (resamples c <? 1) || (resamples c >? 30)
  then Some (TypeError (msg_resamples (metric c)))
  else None.

Definition violations (K : class_consts) (c : collator) : list (option exn) :=
  [ url_violation K (urls c);
    parameter_violation (classifiers c) (VALID_CLASSIFIERS K) "classifier";
    parameter_violation (problem_list c) (VALID_PROBLEMS K) "problem";
    parameter_violation (metric c) (VALID_METRICS K) "metric";
    resamples_violation c;
    parameter_violation (toolkit c) (VALID_TOOLKITS K) "toolkit" ].

Fixpoint first_some {A} (l : list (option A)) : option A :=
  match l with
  | [] => None
  | Some a :: _ => Some a
  | None :: l' => first_some l'
  end.

Definition first_violation (K : class_consts) (c : collator) : option exn :=
  first_some (violations K c).

(** Reading C3 to the letter: in a fresh process, once the module is
    imported, a collator with one url outside the trusted domain is refused
    while no request at all has been made yet. *)
Definition lazily_populated : Prop :=
  forall K w1 url,
    class_body world0 = (inr K, w1) ->
    str_contains (VALID_DOMAIN K) url = false ->
    let r := get_results K (State (__init__ [url] None None None None None) w1) in
    raised r = true /\ fetch_log (wd (snd r)) = [].

(** The world after a sequence of lookups, whatever they return. *)
Fixpoint after_lookups (ls : list (string * string)) (w : world) : world :=
  match ls with
  | [] => w
  | (url, key) :: rest => after_lookups rest (snd (get_enum_from_url url key w))
  end.

End Network.

(** *** Two small networks to run the module on *)

Definition TRUSTED : string := "https://timeseriesclassification.com".

Definition demo_net (log : list string) (url : string) : exn + response :=
  if String.eqb url CLASSIFIERS_REQUEST_URL then
    inr (Response (inr [ {[ "Acronym" := PStr "HC2"; "Year" := PInt 2021 ]};
                         {[ "Acronym" := PStr "ROCKET" ]} ]) "")
  else if String.eqb url PROBLEM_REQUEST_URL then
    inr (Response (inr [ {[ "Dataset" := PStr "GunPoint" ]};
                         {[ "Dataset" := PStr "Coffee"; "Dataset_id" := PInt 7 ]} ]) "")
  else if str_contains TRUSTED url then
    inr (Response (inl (OtherError "Expecting value"))
           ("HC2,ROCKET" ++ String "010" "0.9,0.8"))
  else inl (OtherError "connection refused").

(** The first request of the process times out. *)
Definition flaky_net (log : list string) (url : string) : exn + response :=
  match log with
  | [] => inl (OtherError "timed out")
  | _ => demo_net log url
  end.

(** Three collators: one url outside the trusted domain; a trusted url with
    [resamples=31]; a trusted url with the defaults. *)
Definition outside_collator : collator :=
  __init__ ["http://example.org/results.csv"] None None None None None.
Definition resamples31_collator : collator :=
  __init__ ["https://timeseriesclassification.com/results.csv"] None None None (Some 31) None.
Definition default_collator : collator :=
  __init__ ["https://timeseriesclassification.com/results.csv"] None None None None None.

Definition demo_consts : class_consts :=
  ClassConsts [PStr "sktime"; PStr "tsml"] [PStr "accuracy"; PStr "f1"]
    [PStr "HC2"; PStr "ROCKET"] [PStr "GunPoint"; PStr "Coffee"] TRUSTED.

(** A collator that asks for every toolkit. *)
Definition any_toolkit_collator : collator :=
  __init__ ["https://timeseriesclassification.com/results.csv"] None None None None
    (Some (PStr "*")).

(** A collator that asks for a problem the enumeration does not have. *)
Definition unknown_problem_collator : collator :=
  __init__ ["https://timeseriesclassification.com/results.csv"]
    (Some (PList [PStr "ROCKET"])) (Some (PStr "Adiac")) None None None.

(** *** Reading a table back as text *)

(** [sep.join(parts)] for a one-character separator. *)
Fixpoint join (sep : ascii) (parts : list string) : string :=
  match parts with
  | [] => ""
  | [x] => x
  | x :: rest => x ++ String sep (join sep rest)
  end.

(** The number of occurrences of a character in a string. *)
Fixpoint count_char (c : ascii) (s : string) : nat :=
  match s with
  | EmptyString => 0
  | String a s' => (if Ascii.eqb a c then 1 else 0) + count_char c s'
  end.

(** The cells of a row that hold a string, without the filling. *)
Definition present (row : list (option string)) : list string := omap id row.

Definition newline : ascii := "010"%char.

End Collator.

(* ===================================================================== *)
(** ** Facts about the string built-ins                                    *)
(* ===================================================================== *)

Module PyFacts.

Example str_repr_plain : py_repr (PList [PStr "a"; PStr "b"]) = "['a', 'b']".
Proof. vm_compute. reflexivity. Qed.

Example str_repr_quote : str_repr "it's" = String dquote ("it's" ++ String dquote "").
Proof. vm_compute. reflexivity. Qed.

Example py_str_int : py_str (PInt (-31)) = "-31".
Proof. vm_compute. reflexivity. Qed.

Example monad_keeps_state :
  (x ← get; put (x + 1);; (raise (ValueError "boom") : M Z unit);; put 0) 5
  = (inl (ValueError "boom"), 6).
Proof. reflexivity. Qed.

Lemma prefix_extend (u s b : string) :
  String.prefix u s = true -> String.prefix u (s ++ b) = true.
Proof.
  revert u. induction s as [|c s IH]; intros [|a u]; simpl; try done.
  - intros _. by destruct b.
  - destruct (ascii_dec a c); [apply IH | done].
Qed.

Lemma prefix_self (u b : string) : String.prefix u (u ++ b) = true.
Proof.
  induction u as [|a u IH]; simpl; [by destruct b|].
  destruct (ascii_dec a a); [apply IH | done].
Qed.

Lemma contains_extend (u s b : string) :
  str_contains u s = true -> str_contains u (s ++ b) = true.
Proof.
  induction s as [|c s IH]; simpl.
  - rewrite orb_false_r. destruct u; [|done]. intros _. by destruct b.
  - intros [H|H]%orb_true_iff; apply orb_true_iff.
    + left. by apply (prefix_extend u (String c s) b).
    + right. by apply IH.
Qed.

Lemma contains_skip (u a s : string) :
  str_contains u s = true -> str_contains u (a ++ s) = true.
Proof.
  induction a as [|c a IH]; simpl; [done|].
  intros H. apply orb_true_iff. right. by apply IH.
Qed.

Lemma append_empty (u : string) : u ++ "" = u.
Proof.
  induction u as [|a u IH]; [done|].
  change (String a (u ++ "") = String a u). by rewrite IH.
Qed.

Lemma contains_self (u : string) : str_contains u u = true.
Proof.
  destruct u as [|a u]; [done|]. simpl. apply orb_true_iff. left.
  destruct (ascii_dec a a); [|done].
  pose proof (prefix_self u "") as H. by rewrite append_empty in H.
Qed.

(** An f-string shows what it interpolates. *)
Lemma contains_middle (u a b : string) : str_contains u (a ++ u ++ b) = true.
Proof. apply contains_skip, contains_extend, contains_self. Qed.

Lemma contains_end (u a : string) : str_contains u (a ++ u) = true.
Proof. apply contains_skip, contains_self. Qed.

Lemma py_eqb_refl : forall v : pyval, py_eqb v v = true.
Proof.
  fix IH 1. intros [ | b | z | s | l]; simpl.
  - done.
  - by destruct b.
  - apply Z.eqb_refl.
  - apply String.eqb_refl.
  - induction l as [|x l IHl]; [done|]. by rewrite IH.
Qed.

End PyFacts.

(* ===================================================================== *)
(** ** Properties of the result collator                                   *)
(* ===================================================================== *)

Module CollatorSpec.
Import Collator.

Example class_body_demo :
  class_body demo_net world0
  = (inr demo_consts,
     World [CLASSIFIERS_REQUEST_URL; PROBLEM_REQUEST_URL]
       (<[(PROBLEM_REQUEST_URL, "Dataset") := [PStr "GunPoint"; PStr "Coffee"]]>
          (<[(CLASSIFIERS_REQUEST_URL, "Acronym") := [PStr "HC2"; PStr "ROCKET"]]> ∅))).
Proof. vm_compute. reflexivity. Qed.

Example format_demo :
  _format_result ("a,b,c" ++ String "010" "1,2")
  = [[Some "a"; Some "b"; Some "c"]; [Some "1"; Some "2"; None]].
Proof. vm_compute. reflexivity. Qed.

Section Lookup.

Variable net : list string -> string -> exn + response.

Lemma collect_values key recs : forall vals acc,
  Forall2 (fun (r : record) v => r !! key = Some v) recs vals ->
  collect key recs acc = inr (acc ++ vals)%list.
Proof.
  induction recs as [|r recs IH]; intros vals acc HF; inversion HF; subst; simpl.
  - by rewrite app_nil_r.
  - match goal with H : r !! key = Some _ |- _ => rewrite H end.
    rewrite (IH _ _ ltac:(eassumption)). by rewrite <- app_assoc.
Qed.

Lemma lookup_hit url key w vals :
  enum_cache w !! (url, key) = Some vals ->
  get_enum_from_url net url key w = (inr vals, w).
Proof.
  intros H. unfold get_enum_from_url, mbind, M_bind, bind, get. simpl. by rewrite H.
Qed.

(** A lookup that misses the memo table: one request, and the table grows
    only when the body returns. *)
Lemma lookup_miss url key w :
  enum_cache w !! (url, key) = None ->
  get_enum_from_url net url key w =
    let w1 := World (fetch_log w ++ [url])%list (enum_cache w) in
    match net (fetch_log w) url with
    | inl e => (inl e, w1)
    | inr r =>
        match resp_json r with
        | inl e => (inl e, w1)
        | inr recs =>
            match collect key recs [] with
            | inl e => (inl e, w1)
            | inr vals =>
                (inr vals,
                 World (fetch_log w ++ [url])%list (<[(url, key) := vals]> (enum_cache w)))
            end
        end
    end.
Proof.
  intros H.
  unfold get_enum_from_url, get_enum_body, requests_get, mbind, M_bind, bind, get,
    lift, modify, mret, M_ret, ret.
  simpl. rewrite H.
  destruct (net (fetch_log w) url) as [e|r]; [done|].
  destruct (resp_json r) as [e|recs]; [done|].
  by destruct (collect key recs []).
Qed.

(** The memo table only grows: an entry stays what it is. *)
Lemma lookup_keeps url key w p vals :
  enum_cache w !! p = Some vals ->
  enum_cache (snd (get_enum_from_url net url key w)) !! p = Some vals.
Proof.
  intros Hp.
  destruct (enum_cache w !! (url, key)) as [v|] eqn:E.
  - by rewrite (lookup_hit _ _ _ _ E).
  - rewrite (lookup_miss _ _ _ E). cbv zeta.
    destruct (net (fetch_log w) url) as [e|r]; [done|].
    destruct (resp_json r) as [e|recs]; [done|].
    destruct (collect key recs []); [done|]. simpl.
    rewrite lookup_insert_ne; [done|]. intros Heq. subst p. congruence.
Qed.

(** A lookup that misses makes one request, whatever comes of it. *)
Lemma lookup_miss_log url key w :
  enum_cache w !! (url, key) = None ->
  fetch_log (snd (get_enum_from_url net url key w)) = (fetch_log w ++ [url])%list.
Proof.
  intros H. rewrite (lookup_miss _ _ _ H). cbv zeta.
  destruct (net (fetch_log w) url) as [e|r]; [done|].
  destruct (resp_json r) as [e|recs]; [done|].
  by destruct (collect key recs []).
Qed.

(** A lookup that returns has its result in the memo table. *)
Lemma lookup_stored url key w vals w' :
  get_enum_from_url net url key w = (inr vals, w') ->
  enum_cache w' !! (url, key) = Some vals.
Proof.
  destruct (enum_cache w !! (url, key)) as [v|] eqn:E.
  - rewrite (lookup_hit _ _ _ _ E). by intros [= <- <-].
  - rewrite (lookup_miss _ _ _ E). cbv zeta.
    destruct (net (fetch_log w) url) as [e|r]; [done|].
    destruct (resp_json r) as [e|recs]; [done|].
    destruct (collect key recs []); [done|].
    intros [= <- <-]. simpl. apply lookup_insert_eq.
Qed.

(** A lookup leaves the other pairs of the memo table as they were. *)
Lemma lookup_other url key w p :
  p <> (url, key) ->
  enum_cache (snd (get_enum_from_url net url key w)) !! p = enum_cache w !! p.
Proof.
  intros Hne.
  destruct (enum_cache w !! (url, key)) as [v|] eqn:E.
  - by rewrite (lookup_hit _ _ _ _ E).
  - rewrite (lookup_miss _ _ _ E). cbv zeta.
    destruct (net (fetch_log w) url) as [e|r]; [done|].
    destruct (resp_json r) as [e|recs]; [done|].
    destruct (collect key recs []); [done|]. simpl.
    by rewrite lookup_insert_ne.
Qed.

Lemma after_lookups_keeps ls : forall w p vals,
  enum_cache w !! p = Some vals ->
  enum_cache (after_lookups net ls w) !! p = Some vals.
Proof.
  induction ls as [|[u k] ls IH]; intros w p vals Hp; simpl; [done|].
  apply IH. by apply lookup_keeps.
Qed.

(** C7. The first lookup of a pair [(url, key)] makes exactly one request
    and, when the array arrives and every record has [key], returns the
    values under [key] in the order of the array; after it has returned,
    the same lookup, at any later moment, returns that list and requests
    nothing; another key against the same url makes a request of its own;
    a lookup that raised left the memo table as it was, and the retry makes
    a new request. *)
Theorem enum_lookup_memoized (url key : string) (w : world) :
  enum_cache w !! (url, key) = None ->
  let r1 := get_enum_from_url net url key w in
  fetch_log (snd r1) = (fetch_log w ++ [url])%list
  /\ (forall resp recs vals,
        net (fetch_log w) url = inr resp -> resp_json resp = inr recs ->
        Forall2 (fun (r : record) v => r !! key = Some v) recs vals ->
        fst r1 = inr vals)
  /\ (forall vals, fst r1 = inr vals ->
        forall ls, let w' := after_lookups net ls (snd r1) in
        get_enum_from_url net url key w' = (inr vals, w'))
  /\ (forall key', key' <> key -> enum_cache w !! (url, key') = None ->
        let r2 := get_enum_from_url net url key' (snd r1) in
        fetch_log (snd r2) = (fetch_log w ++ [url; url])%list
        /\ (forall resp recs vals,
              net (fetch_log w ++ [url])%list url = inr resp -> resp_json resp = inr recs ->
              Forall2 (fun (r : record) v => r !! key' = Some v) recs vals ->
              fst r2 = inr vals))
  /\ (forall e, fst r1 = inl e ->
        enum_cache (snd r1) = enum_cache w
        /\ fetch_log (snd (get_enum_from_url net url key (snd r1)))
           = (fetch_log w ++ [url; url])%list).
Proof.
  intros Hmiss r1. subst r1. rewrite (lookup_miss _ _ _ Hmiss). cbv zeta.
  assert (Hlog : forall k' (w1 : world),
             enum_cache w1 !! (url, k') = None ->
             fetch_log (snd (get_enum_from_url net url k' w1))
             = (fetch_log w1 ++ [url])%list).
  { intros k' w1 H1. rewrite (lookup_miss _ _ _ H1). cbv zeta.
    destruct (net (fetch_log w1) url) as [e|r]; [done|].
    destruct (resp_json r) as [e|recs]; [done|].
    by destruct (collect k' recs []). }
  assert (Hval : forall k' (w1 : world) resp recs vals,
             enum_cache w1 !! (url, k') = None ->
             net (fetch_log w1) url = inr resp -> resp_json resp = inr recs ->
             Forall2 (fun (r : record) v => r !! k' = Some v) recs vals ->
             fst (get_enum_from_url net url k' w1) = inr vals).
  { intros k' w1 resp recs vals H1 Hn Hj HF. rewrite (lookup_miss _ _ _ H1). cbv zeta.
    rewrite Hn, Hj, (collect_values _ _ _ [] HF). done. }
  assert (Hother : forall (w1 : world) key',
             fetch_log w1 = (fetch_log w ++ [url])%list ->
             enum_cache w1 !! (url, key') = None ->
             let r2 := get_enum_from_url net url key' w1 in
             fetch_log (snd r2) = (fetch_log w ++ [url; url])%list
             /\ (forall resp recs vals,
                   net (fetch_log w ++ [url])%list url = inr resp ->
                   resp_json resp = inr recs ->
                   Forall2 (fun (r : record) v => r !! key' = Some v) recs vals ->
                   fst r2 = inr vals)).
  { intros w1 key' Hl Hk'. cbv zeta. split.
    - rewrite Hlog by done. rewrite Hl. by rewrite <- app_assoc.
    - intros resp recs vals Hn. apply Hval; [done|]. by rewrite Hl. }
  destruct (net (fetch_log w) url) as [e|resp] eqn:En.
  { refine (conj _ (conj _ (conj _ (conj _ _)))); try done.
    - intros key' Hne Hk'. by apply Hother.
    - intros e' _. split; [done|]. by apply Hother. }
  destruct (resp_json resp) as [e|recs] eqn:Ej.
  { refine (conj _ (conj _ (conj _ (conj _ _)))); try done.
    - intros ? ? ? [= <-]. congruence.
    - intros key' Hne Hk'. by apply Hother.
    - intros e' _. split; [done|]. by apply Hother. }
  destruct (collect key recs []) as [e|vals] eqn:Ec.
  { refine (conj _ (conj _ (conj _ (conj _ _)))); try done.
    - intros ? recs' vals [= <-] Hj HF. rewrite Ej in Hj. injection Hj as <-.
      rewrite (collect_values _ _ _ [] HF) in Ec. done.
    - intros key' Hne Hk'. by apply Hother.
    - intros e' _. split; [done|]. by apply Hother. }
  refine (conj _ (conj _ (conj _ (conj _ _)))); try done.
  - intros ? recs' vals' [= <-] Hj HF. rewrite Ej in Hj. injection Hj as <-.
    rewrite (collect_values _ _ _ [] HF) in Ec. simpl in *. congruence.
  - intros vals' [= <-] ls. apply lookup_hit, after_lookups_keeps.
    simpl. apply lookup_insert_eq.
  - intros key' Hne Hk'. apply Hother; [done|]. simpl.
    rewrite lookup_insert_ne; [done|]. congruence.
Qed.

End Lookup.

Lemma enum_lookup_memoized_witness :
  enum_cache world0 !! (CLASSIFIERS_REQUEST_URL, "Acronym") = None
  /\ fetch_log (snd (get_enum_from_url demo_net CLASSIFIERS_REQUEST_URL "Acronym" world0))
     = [CLASSIFIERS_REQUEST_URL]
  /\ fst (get_enum_from_url demo_net CLASSIFIERS_REQUEST_URL "Acronym" world0)
     = inr [PStr "HC2"; PStr "ROCKET"]
  /\ fetch_log (snd (get_enum_from_url flaky_net CLASSIFIERS_REQUEST_URL "Acronym"
                      (snd (get_enum_from_url flaky_net CLASSIFIERS_REQUEST_URL "Acronym" world0))))
     = [CLASSIFIERS_REQUEST_URL; CLASSIFIERS_REQUEST_URL].
Proof.
  pose proof (enum_lookup_memoized demo_net CLASSIFIERS_REQUEST_URL "Acronym" world0 eq_refl)
    as (H1 & H2 & _).
  pose proof (enum_lookup_memoized flaky_net CLASSIFIERS_REQUEST_URL "Acronym" world0 eq_refl)
    as (_ & _ & _ & _ & H5).
  split; [reflexivity|]. split; [exact H1|]. split.
  - eapply H2; [reflexivity | reflexivity |]. repeat constructor.
  - apply (H5 (OtherError "timed out")). reflexivity.
Defined.

(** *** [_check_valid_parameters] *)

Lemma wildcard_gives_all (vs : list pyval) (n : string) :
  _check_valid_parameters (PStr "*") vs n = inr (PList vs).
Proof. reflexivity. Qed.

Lemma check_error_names_parameter vs n v e :
  check vs n v = inl e -> is_TypeError e = true /\ str_contains n (exn_msg e) = true.
Proof.
  unfold check. intros H.
  assert (Hn : str_contains n (msg_none n) = true) by apply PyFacts.contains_middle.
  assert (Hi : str_contains n (msg_invalid n v vs) = true) by apply PyFacts.contains_middle.
  destruct v; try (destruct (negb _); [|done]); injection H as <-; done.
Qed.

(** X11. A list with a [None] in it is refused with an error that names the
    parameter. *)
Lemma none_element_refused vs n vals :
  In PNone vals ->
  exists e, _check_valid_parameters (PList vals) vs n = inl e
            /\ is_TypeError e = true /\ str_contains n (exn_msg e) = true.
Proof.
  intros Hin. simpl.
  assert (H : exists e, check_each vs n vals = inl e
                        /\ is_TypeError e = true /\ str_contains n (exn_msg e) = true).
  { induction vals as [|v vals IH]; [done|]. simpl.
    destruct (check vs n v) as [e|[]] eqn:E.
    - exists e. split; [done|]. by apply (check_error_names_parameter vs n v).
    - destruct Hin as [->|Hin]; [done|]. by apply IH. }
  destruct H as (e & -> & He). by exists e.
Qed.

(** X10. A single string outside the reference list is refused with an error
    that shows the value and the whole list. *)
Lemma unknown_value_refused vs n (v : string) :
  v <> "*" -> py_in (PStr v) vs = false ->
  _check_valid_parameters (PStr v) vs n = inl (TypeError (msg_invalid n (PStr v) vs))
  /\ str_contains v (msg_invalid n (PStr v) vs) = true
  /\ str_contains (py_repr (PList vs)) (msg_invalid n (PStr v) vs) = true.
Proof.
  intros Hne Hin. unfold _check_valid_parameters, check.
  destruct (String.eqb_spec v "*"); [done|]. rewrite Hin. simpl negb. cbv iota.
  split; [done|]. split.
  - unfold msg_invalid. simpl py_str at 1.
    apply (PyFacts.contains_skip v "The parameter "), PyFacts.contains_skip.
    apply PyFacts.contains_middle.
  - unfold msg_invalid.
    do 5 apply PyFacts.contains_skip. apply PyFacts.contains_end.
Qed.

(** X9. Values that all are in the reference list come back as they were. *)
Lemma known_values_returned vs n vals :
  Forall (fun v => v <> PNone /\ py_in v vs = true) vals ->
  _check_valid_parameters (PList vals) vs n = inr (PList vals).
Proof.
  intros HF. simpl.
  assert (H : check_each vs n vals = inr tt).
  { induction HF as [|v vals [Hn Hin] _ IH]; [done|]. simpl.
    unfold check. rewrite Hin. by destruct v. }
  by rewrite H.
Qed.

Lemma known_value_returned vs n (v : string) :
  v <> "*" -> py_in (PStr v) vs = true ->
  _check_valid_parameters (PStr v) vs n = inr (PStr v).
Proof.
  intros Hne Hin. unfold _check_valid_parameters, check.
  destruct (String.eqb_spec v "*"); [done|]. by rewrite Hin.
Qed.

(** C6. A bare [None] never reaches [check]: the [for] statement raises on
    it, with a message that says nothing of the parameter, while a [None]
    inside a list gets the message that names it. *)
Theorem bare_none_not_named :
  (forall vs n, _check_valid_parameters PNone vs n
                = inl (TypeError "'NoneType' object is not iterable"))
  /\ str_contains "x" "'NoneType' object is not iterable" = false
  /\ _check_valid_parameters (PList [PNone]) [PStr "a"] "x"
     = inl (TypeError "The parameter x cannot be None").
Proof. split; [reflexivity|]. split; vm_compute; reflexivity. Qed.

(** *** [get_results] *)

Section GetResults.

Variable net : list string -> string -> exn + response.

Lemma domain_loop K us (s : state) :
  for_each us (check_domain K) s
  = match url_violation K us with
    | Some e => (inl e, s)
    | None => (inr tt, s)
    end.
Proof.
  unfold url_violation. induction us as [|url us IH]; [done|]. simpl.
  unfold bind, check_domain at 1.
  destruct (negb (str_contains (VALID_DOMAIN K) url)); [done|]. simpl. apply IH.
Qed.

(** The base method requests the urls one after the other and stops at the
    first failure. *)
Lemma base_loop_log todo : forall results (s : state),
  let r := ResultCollator_get_results_loop net todo results s in
  self (snd r) = self s
  /\ exists n, (n <= length todo)%nat
     /\ fetch_log (wd (snd r)) = (fetch_log (wd s) ++ take n todo)%list
     /\ (forall tables, fst r = inr tables ->
           n = length todo /\ length tables = (length results + length todo)%nat).
Proof.
  induction todo as [|url todo IH]; intros results s; simpl.
  - split; [done|]. exists 0%nat. rewrite app_nil_r.
    split; [done|]. split; [done|]. intros tables [= <-]. lia.
  - unfold mbind, M_bind, bind, in_world, requests_get. simpl.
    destruct (net (fetch_log (wd s)) url) as [e|resp].
    + simpl. split; [done|]. exists 1%nat. simpl. rewrite take_0.
      split; [lia|]. split; [done|]. intros tables [=].
    + specialize (IH (results ++ [_format_result (resp_text resp)])%list
                     (State (self s) (World (fetch_log (wd s) ++ [url])%list (enum_cache (wd s))))).
      cbv zeta in IH. destruct IH as (Hs & n & Hn & Hl & Ht).
      split; [done|]. exists (S n). simpl. split; [lia|]. split.
      * rewrite Hl. simpl. by rewrite <- app_assoc.
      * intros tables Hr. destruct (Ht _ Hr) as [-> Hlen].
        rewrite length_app in Hlen. simpl in Hlen. lia.
Qed.

Lemma resamples_in_range (c : collator) :
  resamples_violation c = None <-> 1 <= resamples c <= 30.
Proof.
  unfold resamples_violation.
  destruct (resamples c <? 1) eqn:E1, (resamples c >? 30) eqn:E2; simpl;
    split; intros H; try done; lia.
Qed.

(** The method, statement by statement, from a given object and world. *)
Lemma get_results_run (K : class_consts) (c : collator) (w : world) :
  get_results net K (State c w) =
  match url_violation K (urls c) with
  | Some e => (inl e, State c w)
  | None =>
  match _check_valid_parameters (classifiers c) (VALID_CLASSIFIERS K) "classifier" with
  | inl e => (inl e, State c w)
  | inr vc =>
  let c1 := set__classifiers vc c in
  match _check_valid_parameters (problem_list c) (VALID_PROBLEMS K) "problem" with
  | inl e => (inl e, State c1 w)
  | inr vp =>
  let c2 := set__problem_list vp c1 in
  match _check_valid_parameters (metric c) (VALID_METRICS K) "metric" with
  | inl e => (inl e, State c2 w)
  | inr _ =>
  if (resamples c <? 1) || (resamples c >? 30)
  then (inl (TypeError (msg_resamples (metric c))), State c2 w)
  else
  match _check_valid_parameters (toolkit c) (VALID_TOOLKITS K) "toolkit" with
  | inl e => (inl e, State c2 w)
  | inr vt => ResultCollator_get_results net (State (set_toolkit vt c2) w)
  end end end end end.
Proof.
  unfold get_results.
  unfold mbind, M_bind, bind at 1. simpl.
  unfold bind at 1. rewrite domain_loop.
  destruct (url_violation K (urls c)) as [e|]; [done|].
  unfold bind, lift, read, assign, modify. simpl.
  destruct (_check_valid_parameters (classifiers c) _ _) as [e|vc]; [done|]. simpl.
  destruct (_check_valid_parameters (problem_list c) _ _) as [e|vp]; [done|]. simpl.
  destruct (_check_valid_parameters (metric c) _ _) as [e|vm]; [done|]. simpl.
  destruct ((resamples c <? 1) || (resamples c >? 30)); [done|]. simpl.
  by destruct (_check_valid_parameters (toolkit c) _ _) as [e|vt].
Qed.

(** C5. [get_results] raises the first violation in the order url domain,
    classifiers, problems, metric, resamples, toolkit, each check taken on
    the collator as configured, and a call that raises one has made no
    request; when there is none the method goes on as the base method, which
    requests the configured urls one by one (all of them when it returns). *)
Theorem get_results_order (K : class_consts) (c : collator) (w : world) :
  let r := get_results net K (State c w) in
  match first_violation K c with
  | Some e => fst r = inl e /\ wd (snd r) = w
  | None =>
      exists c', urls c' = urls c
        /\ r = ResultCollator_get_results net (State c' w)
        /\ exists n, (n <= length (urls c))%nat
           /\ fetch_log (wd (snd r)) = (fetch_log w ++ take n (urls c))%list
           /\ (forall tables, fst r = inr tables ->
                 n = length (urls c) /\ length tables = length (urls c))
  end.
Proof.
  cbv zeta. rewrite get_results_run.
  unfold first_violation, violations, first_some, parameter_violation,
    resamples_violation.
  destruct (url_violation K (urls c)) as [e|]; [done|].
  destruct (_check_valid_parameters (classifiers c) _ _) as [e|vc]; [done|].
  destruct (_check_valid_parameters (problem_list c) _ _) as [e|vp]; [done|].
  destruct (_check_valid_parameters (metric c) _ _) as [e|vm]; [done|].
  destruct ((resamples c <? 1) || (resamples c >? 30)); [done|].
  destruct (_check_valid_parameters (toolkit c) _ _) as [e|vt]; [done|].
  cbv zeta. eexists. split; [|split; [reflexivity|]]; [done|].
  unfold ResultCollator_get_results, mbind, M_bind, bind, read. simpl.
  match goal with |- context [ResultCollator_get_results_loop net ?t ?r ?s] =>
    destruct (base_loop_log t r s) as (_ & n & Hn & Hl & Ht) end.
  exists n. split; [done|]. split; [done|]. intros tables Hr.
  destruct (Ht _ Hr) as [-> Hlen]. done.
Qed.

(** C3, as the code has it. A collator with exactly one url, and that url
    outside the trusted domain: [get_results] raises the [TypeError] that
    names the url, and the call makes no request and leaves the object as it
    was.  The two enumerations are not fetched during validation: the class
    body fetches them, classifiers first, when the module is imported. *)
Theorem untrusted_url_refused (K : class_consts) (c : collator) (w : world) (url : string) :
  urls c = [url] ->
  str_contains (VALID_DOMAIN K) url = false ->
  get_results net K (State c w) = (inl (TypeError (msg_url K url)), State c w)
  /\ str_contains url (msg_url K url) = true
  /\ (forall w0 K0 w1,
        enum_cache w0 !! (CLASSIFIERS_REQUEST_URL, "Acronym") = None ->
        enum_cache w0 !! (PROBLEM_REQUEST_URL, "Dataset") = None ->
        class_body net w0 = (inr K0, w1) ->
        fetch_log w1 = (fetch_log w0 ++ [CLASSIFIERS_REQUEST_URL; PROBLEM_REQUEST_URL])%list
        /\ enum_cache w1 !! (CLASSIFIERS_REQUEST_URL, "Acronym") = Some (VALID_CLASSIFIERS K0)
        /\ enum_cache w1 !! (PROBLEM_REQUEST_URL, "Dataset") = Some (VALID_PROBLEMS K0)).
Proof.
  intros Hu Hbad. split; [|split].
  - rewrite get_results_run, Hu. unfold url_violation. simpl. by rewrite Hbad.
  - apply (PyFacts.contains_middle url "The url ").
  - intros w0 K0 w1 Hc Hp. unfold class_body, mbind, M_bind, bind.
    pose proof (lookup_miss_log net _ _ w0 Hc) as Hl1.
    pose proof (lookup_other net CLASSIFIERS_REQUEST_URL "Acronym" w0
                  (PROBLEM_REQUEST_URL, "Dataset") ltac:(done)) as Hpa.
    rewrite Hp in Hpa.
    destruct (get_enum_from_url net CLASSIFIERS_REQUEST_URL "Acronym" w0)
      as [[e|cs] wa] eqn:Ea; [done|]. simpl in Hl1, Hpa.
    pose proof (lookup_stored net _ _ _ _ _ Ea) as Hcs.
    pose proof (lookup_miss_log net _ _ wa Hpa) as Hl2.
    pose proof (lookup_keeps net PROBLEM_REQUEST_URL "Dataset" wa _ _ Hcs) as Hkeep.
    destruct (get_enum_from_url net PROBLEM_REQUEST_URL "Dataset" wa)
      as [[e|ps] wb] eqn:Eb; [done|]. simpl in Hl2, Hkeep.
    pose proof (lookup_stored net _ _ _ _ _ Eb) as Hps.
    intros [= <- <-]. simpl. split; [|done].
    rewrite Hl2, Hl1. by rewrite <- app_assoc.
Qed.

End GetResults.

Lemma untrusted_url_refused_witness :
  get_results demo_net demo_consts (State outside_collator world0)
  = (inl (TypeError ("The url http://example.org/results.csv is invalid. Please use a url "
                     ++ "from the domain https://timeseriesclassification.com")),
     State outside_collator world0).
Proof.
  exact (proj1 (untrusted_url_refused demo_net demo_consts outside_collator world0
                  "http://example.org/results.csv" eq_refl eq_refl)).
Defined.

(** C3 read to the letter fails: in a fresh process the import of the module
    has already requested both enumerations when the collator with the
    untrusted url is refused. *)
Lemma enumerations_fetched_at_import :
  (exists K w1,
      class_body demo_net world0 = (inr K, w1)
      /\ fetch_log w1 = [CLASSIFIERS_REQUEST_URL; PROBLEM_REQUEST_URL]
      /\ get_results demo_net K (State outside_collator w1)
         = (inl (TypeError (msg_url K "http://example.org/results.csv")),
            State outside_collator w1))
  /\ ~ lazily_populated demo_net.
Proof.
  split.
  - eexists _, _. split; [vm_compute; reflexivity|]. split; [reflexivity|].
    vm_compute. reflexivity.
  - intros H.
    destruct (H demo_consts _ "http://example.org/results.csv" class_body_demo eq_refl)
      as [_ Hlog].
    vm_compute in Hlog. discriminate Hlog.
Qed.

(** C4. With every earlier check passed, [resamples=31] is refused, and no
    request is made; but the message shows the metric where the claim wants
    the number of resamples: 31 does not occur in it. *)
Theorem resamples_error_names_metric (w : world) :
  get_results demo_net demo_consts (State resamples31_collator w)
  = (inl (TypeError ("The number of resamples accuracy is invalid. "
                     ++ "The number of resamples must be between 1 and 30")),
     State (set__problem_list (PList (VALID_PROBLEMS demo_consts))
              (set__classifiers (PList (VALID_CLASSIFIERS demo_consts))
                 resamples31_collator)) w)
  /\ str_contains "31" ("The number of resamples accuracy is invalid. "
                        ++ "The number of resamples must be between 1 and 30") = false
  /\ resamples_violation resamples31_collator
     = Some (TypeError (msg_resamples (PStr "accuracy"))).
Proof.
  split; [|split; vm_compute; reflexivity].
  rewrite get_results_run. vm_compute. reflexivity.
Qed.

Example get_results_demo :
  get_results demo_net demo_consts (State default_collator world0)
  = (inr [[[Some "HC2"; Some "ROCKET"]; [Some "0.9"; Some "0.8"]]],
     State (Collator ["https://timeseriesclassification.com/results.csv"]
              (PStr "*") (PStr "*") (PStr "accuracy") 1 (PStr "sktime")
              (PList [PStr "HC2"; PStr "ROCKET"]) (PList [PStr "GunPoint"; PStr "Coffee"]))
       (World ["https://timeseriesclassification.com/results.csv"] ∅)).
Proof. vm_compute. reflexivity. Qed.

End CollatorSpec.

(* ===================================================================== *)
(** ** Properties of the aligner adapters                                  *)
(* ===================================================================== *)

Module AlignerSpec.
Import Aligner.

Example lockstep_demo :
  AlignerDTW__fit lockstep_dtw [seq_ab; seq_ba] (State (configure dtw_defaults blank) [])
  = (inr tt,
     State (Aligner None (Some (PStr "euclidean")) (Some (PStr "symmetric2"))
              (Some (PStr "none")) (Some (PBool false)) (Some (PBool false))
              (Some (PStr "a")) (Some (DtwResult [0; 1; 2] [0; 1; 2] 2))
              (Some [seq_ab; seq_ba]))
       [DtwArgs (Array1 [1; 2; 4]) (Some (Array1 [0; 2; 5])) (Some (PStr "euclidean"))
          (PStr "symmetric2") (PStr "none") (PBool false) (PBool false) true]).
Proof. vm_compute. reflexivity. Qed.

Section Adapters.

Context {num : Type}.
Variable zero : num.
Variable dtw : dtw_args num -> exn + dtw_result num.
Variable BaseAligner___init__ : M (state num) unit.

(** *** Construction *)

(** C2. [AlignerDTW(...)] raises for every configuration: [super] is given
    [AlignerDTWdist], of which the new object is no instance.  The
    [TypeError] comes before any attribute is set, so whatever follows the
    construction, a fit or a query, is never run. *)
Theorem vector_constructor_raises (cfg : dtw_config) (s : state num) :
  isinstance AlignerDTW AlignerDTWdist = false
  /\ new_AlignerDTW BaseAligner___init__ cfg s
     = (inl (TypeError msg_super), State blank (dtw_calls s))
  /\ forall (A : Type) (after : unit -> M (state num) A),
       (new_AlignerDTW BaseAligner___init__ cfg ≫= after) s
       = (inl (TypeError msg_super), State blank (dtw_calls s)).
Proof.
  split; [reflexivity|]. split; [reflexivity|]. intros A after. reflexivity.
Qed.

(** C9. [AlignerDTWdist(...)] without a [dist_trafo] raises in the
    constructor ([ValueError] once the base constructor has returned); with
    one, and a base constructor that returns, it returns an object that
    holds the transformer and the four options. *)
Theorem matrix_constructor_needs_trafo (cfg : dist_config num) (s : state num) :
  (dcfg_dist_trafo cfg = None ->
     exists e, fst (new_AlignerDTWdist BaseAligner___init__ cfg s) = inl e
       /\ forall s1, BaseAligner___init__ (State blank (dtw_calls s)) = (inr tt, s1) ->
            new_AlignerDTWdist BaseAligner___init__ cfg s
            = (inl (ValueError "No component dist_trafo provided"), s1))
  /\ (forall f s1,
        dcfg_dist_trafo cfg = Some f ->
        BaseAligner___init__ (State blank (dtw_calls s)) = (inr tt, s1) ->
        exists s', new_AlignerDTWdist BaseAligner___init__ cfg s = (inr tt, s')
          /\ dist_trafo (self s') = Some f
          /\ step_pattern (self s') = Some (dcfg_step_pattern cfg)
          /\ window_type (self s') = Some (dcfg_window_type cfg)
          /\ open_begin (self s') = Some (dcfg_open_begin cfg)
          /\ open_end (self s') = Some (dcfg_open_end cfg)
          /\ dtw_calls s' = dtw_calls s1).
Proof.
  unfold new_AlignerDTWdist, AlignerDTWdist___init__, super_init, mbind, M_bind, bind,
    assign, modify. simpl.
  split.
  - intros ->. destruct (BaseAligner___init__ _) as [[e|[]] s1].
    + exists e. split; [done|]. by intros ? [=].
    + eexists. split; [done|]. by intros ? [= <-].
  - intros f s1 -> ->. eexists. split; [reflexivity|]. done.
Qed.

(** *** [AlignerDTW._fit] *)


(** [_fit] on a configured object, up to the call of the engine. *)
Lemma vector_fit_run (cfg : dtw_config) (a : aligner num) calls (X1 X2 : data_frame num) :
  let s := State (configure cfg a) calls in
  AlignerDTW__fit dtw [X1; X2] s =
  match (match cfg_variable_to_align cfg with
         | PNone => first_column X1
         | v => inr v
         end) with
  | inl e => (inl e, s)
  | inr var =>
      if negb (has_column var X1)
      then (inl (ValueError (msg_no_variable "X[0]" var)), s)
      else if negb (has_column var X2)
      then (inl (ValueError (msg_no_variable "X[1]" var)), s)
      else
        match column_values X1 var with
        | inl e => (inl e, s)
        | inr v1 =>
        match column_values X2 var with
        | inl e => (inl e, s)
        | inr v2 =>
            let args := DtwArgs v1 (Some v2) (Some (cfg_dist_method cfg))
                          (cfg_step_pattern cfg) (cfg_window_type cfg)
                          (cfg_open_begin cfg) (cfg_open_end cfg) true in
            match dtw args with
            | inl e => (inl e, State (configure cfg a) (calls ++ [args])%list)
            | inr r =>
                (inr tt,
                 State (set_variable_to_align var
                          (set_X [X1; X2] (set_alignment r (configure cfg a))))
                   (calls ++ [args])%list)
            end
        end end
  end.
Proof.
  cbv zeta.
  unfold AlignerDTW__fit, mbind, M_bind, bind, attr, lift, assign, modify, call_dtw,
    item. simpl.
  destruct (cfg_variable_to_align cfg) eqn:Ev; simpl;
    try destruct (first_column X1) as [e|var]; simpl; try done;
    (destruct (has_column _ X1); simpl; [|done]);
    (destruct (has_column _ X2); simpl; [|done]);
    (destruct (column_values X1 _); simpl; [done|]);
    (destruct (column_values X2 _); simpl; [done|]);
    by destruct (dtw _).
Qed.

(** C8. With a target column named in the configuration, [_fit] raises the
    [ValueError] for [X[0]] when the first sequence lacks the column, and the
    one for [X[1]] when only the second lacks it; in both cases the engine
    has not been called.  Whenever the engine is called, it is on the values
    of that very column in both sequences. *)
Theorem missing_column_refused (cfg : dtw_config) (a : aligner num)
    (calls : list (dtw_args num)) (X1 X2 : data_frame num) :
  let var := cfg_variable_to_align cfg in
  let s := State (configure cfg a) calls in
  var <> PNone ->
  (has_column var X1 = false ->
     AlignerDTW__fit dtw [X1; X2] s
     = (inl (ValueError ("X[0] does not have variable " ++ py_str var
                         ++ " used for alignment")), s))
  /\ (has_column var X1 = true -> has_column var X2 = false ->
       AlignerDTW__fit dtw [X1; X2] s
       = (inl (ValueError ("X[1] does not have variable " ++ py_str var
                           ++ " used for alignment")), s))
  /\ (forall r s', AlignerDTW__fit dtw [X1; X2] s = (r, s') ->
       dtw_calls s' <> calls ->
       exists v1 v2,
         column_values X1 var = inr v1 /\ column_values X2 var = inr v2
         /\ dtw_calls s'
            = (calls ++ [DtwArgs v1 (Some v2) (Some (cfg_dist_method cfg))
                           (cfg_step_pattern cfg) (cfg_window_type cfg)
                           (cfg_open_begin cfg) (cfg_open_end cfg) true])%list).
Proof.
  intros var s Hvar. subst s. rewrite vector_fit_run. cbv zeta.
  assert (Hsel : match cfg_variable_to_align cfg with
                 | PNone => first_column X1
                 | v => inr v
                 end = inr var).
  { revert Hvar. unfold var. by destruct (cfg_variable_to_align cfg). }
  rewrite Hsel. fold var. split; [|split].
  - by intros ->.
  - by intros -> ->.
  - intros r s'.
    destruct (has_column var X1); simpl; [|by intros [= <- <-]].
    destruct (has_column var X2); simpl; [|by intros [= <- <-]].
    destruct (column_values X1 var) as [e|v1]; [by intros [= <- <-]|].
    destruct (column_values X2 var) as [e|v2]; [by intros [= <- <-]|].
    destruct (dtw _); intros [= <- <-] _; by exists v1, v2.
Qed.

(** *** Queries after a fit *)

Lemma vector_fit_stores Xs (s s' : state num) :
  AlignerDTW__fit dtw Xs s = (inr tt, s') -> is_Some (alignment (self s')).
Proof.
  unfold AlignerDTW__fit, mbind, M_bind, bind, attr, lift, assign, modify, call_dtw,
    raise, mret, M_ret, ret.
  intros H. repeat (case_match; simplify_eq/=; try done).
Qed.

Lemma matrix_fit_stores Xs (s s' : state num) :
  AlignerDTWdist__fit dtw Xs s = (inr tt, s') -> is_Some (alignment (self s')).
Proof.
  unfold AlignerDTWdist__fit, mbind, M_bind, bind, attr, lift, assign, modify, call_dtw,
    raise, mret, M_ret, ret.
  intros H. repeat (case_match; simplify_eq/=; try done).
Qed.

(** C10. After a fit that returned, [get_distance_matrix] is the 2 x 2 array
    with zeros on the diagonal and the value of [get_distance] in the two
    other cells, for [AlignerDTW] and for [AlignerDTWdist]. *)
Theorem distance_matrix_mirrors_distance :
  (forall Xs (s s' : state num),
      AlignerDTW__fit dtw Xs s = (inr tt, s') ->
      exists d, AlignerDTW_get_distance s' = (inr d, s')
        /\ AlignerDTW_get_distance_matrix zero s' = (inr [[zero; d]; [d; zero]], s'))
  /\ (forall Xs (s s' : state num),
        AlignerDTWdist__fit dtw Xs s = (inr tt, s') ->
        exists d, AlignerDTWdist_get_distance s' = (inr d, s')
          /\ AlignerDTWdist_get_distance_matrix zero s' = (inr [[zero; d]; [d; zero]], s')).
Proof.
  split; intros Xs s s' Hfit.
  - destruct (vector_fit_stores _ _ _ Hfit) as [r Hr]. exists (distance r).
    unfold AlignerDTW_get_distance, AlignerDTW_get_distance_matrix, mbind, M_bind,
      bind, attr. rewrite !Hr. done.
  - destruct (matrix_fit_stores _ _ _ Hfit) as [r Hr]. exists (distance r).
    unfold AlignerDTWdist_get_distance, AlignerDTWdist_get_distance_matrix, mbind,
      M_bind, bind, attr. rewrite !Hr. done.
Qed.

End Adapters.

Section DefaultFit.

Context {num : Type}.
Variable nonneg : num -> bool.
Variable dtw : dtw_args num -> exn + dtw_result num.


End DefaultFit.

Lemma matrix_constructor_needs_trafo_witness :
  new_AlignerDTWdist plain_init dist_defaults (State blank [])
  = (inl (ValueError "No component dist_trafo provided"), State blank [])
  /\ exists s', new_AlignerDTWdist plain_init
                  (DistConfig (Some unit_trafo) (PStr "symmetric2") (PStr "none")
                     (PBool false) (PBool false)) (State blank [])
                = (inr tt, s')
       /\ step_pattern (self s') = Some (PStr "symmetric2").
Proof.
  split.
  - destruct (proj1 (matrix_constructor_needs_trafo plain_init dist_defaults (State blank []))
                eq_refl) as (e & _ & H).
    exact (H _ eq_refl).
  - destruct (proj2 (matrix_constructor_needs_trafo plain_init
                       (DistConfig (Some unit_trafo) (PStr "symmetric2") (PStr "none")
                          (PBool false) (PBool false)) (State blank []))
                unit_trafo _ eq_refl eq_refl) as (s' & H & _ & Hsp & _).
    exists s'. split; [exact H | exact Hsp].
Defined.

Lemma missing_column_refused_witness :
  AlignerDTW__fit lockstep_dtw [seq_ab; seq_b]
    (State (configure (DtwConfig (PStr "euclidean") (PStr "symmetric2") (PStr "none")
                         (PBool false) (PBool false) (PStr "a")) blank) [])
  = (inl (ValueError "X[1] does not have variable a used for alignment"),
     State (configure (DtwConfig (PStr "euclidean") (PStr "symmetric2") (PStr "none")
                         (PBool false) (PBool false) (PStr "a")) blank) [])
  /\ AlignerDTW__fit lockstep_dtw [seq_b; seq_ab]
       (State (configure (DtwConfig (PStr "euclidean") (PStr "symmetric2") (PStr "none")
                            (PBool false) (PBool false) (PStr "a")) blank) [])
     = (inl (ValueError "X[0] does not have variable a used for alignment"),
        State (configure (DtwConfig (PStr "euclidean") (PStr "symmetric2") (PStr "none")
                            (PBool false) (PBool false) (PStr "a")) blank) []).
Proof.
  split.
  - refine (proj1 (proj2 (missing_column_refused lockstep_dtw
                            (DtwConfig (PStr "euclidean") (PStr "symmetric2") (PStr "none")
                               (PBool false) (PBool false) (PStr "a"))
                            blank [] seq_ab seq_b _)) eq_refl eq_refl).
    discriminate.
  - refine (proj1 (missing_column_refused lockstep_dtw
                     (DtwConfig (PStr "euclidean") (PStr "symmetric2") (PStr "none")
                        (PBool false) (PBool false) (PStr "a"))
                     blank [] seq_b seq_ab _) eq_refl).
    discriminate.
Defined.



Lemma distance_matrix_mirrors_distance_witness :
  exists s',
    AlignerDTW__fit lockstep_dtw [seq_ab; seq_ba] (State (configure dtw_defaults blank) [])
    = (inr tt, s')
    /\ AlignerDTW_get_distance s' = (inr 2, s')
    /\ AlignerDTW_get_distance_matrix 0 s' = (inr [[0; 2]; [2; 0]], s').
Proof.
  eexists. split; [exact lockstep_demo|].
  destruct (proj1 (distance_matrix_mirrors_distance 0 lockstep_dtw) _ _ _ lockstep_demo)
    as (d & Hd & Hm).
  assert (d = 2) as -> by (vm_compute in Hd; congruence).
  split; [exact Hd | exact Hm].
Defined.

Example matrix_variant_demo :
  (new_AlignerDTWdist plain_init
     (DistConfig (Some unit_trafo) (PStr "symmetric2") (PStr "none")
        (PBool false) (PBool false));;
   AlignerDTWdist__fit const_dtw [seq_ab; seq_ba];;
   AlignerDTWdist_get_distance_matrix 0) (State blank [])
  = (inr [[0; 0]; [0; 0]],
     State (Aligner (Some unit_trafo) None (Some (PStr "symmetric2")) (Some (PStr "none"))
              (Some (PBool false)) (Some (PBool false)) None
              (Some (DtwResult [0; 1] [0; 1] 0)) (Some [seq_ab; seq_ba]))
       [DtwArgs (Array2 [[0; 1]; [1; 0]]) None None (PStr "symmetric2") (PStr "none")
          (PBool false) (PBool false) true]).
Proof. vm_compute. reflexivity. Qed.

End AlignerSpec.

(* ===================================================================== *)
(** ** More on the result collator                                         *)
(* ===================================================================== *)

Module CollatorMore.
Import Collator.

(** *** [_format_result] *)

Lemma append_cons (a : ascii) (s t : string) : String a s ++ t = String a (s ++ t).
Proof. reflexivity. Qed.

Lemma split_cons (sep : ascii) (s : string) :
  exists h t, split sep s = h :: t.
Proof.
  induction s as [|c s (h & t & IH)]; simpl; [by eauto|].
  destruct (Ascii.eqb c sep); [by eauto|]. rewrite IH. by eauto.
Qed.

Lemma join_cons (sep c : ascii) (h : string) (t : list string) :
  join sep (String c h :: t) = String c (join sep (h :: t)).
Proof. by destruct t. Qed.

Lemma join_split (sep : ascii) (s : string) : join sep (split sep s) = s.
Proof.
  induction s as [|c s IH]; [done|]. simpl split.
  destruct (split_cons sep s) as (h & t & E). rewrite E in *.
  destruct (Ascii.eqb_spec c sep) as [->|Hne].
  - change (join sep ("" :: h :: t)) with (String sep (join sep (h :: t))).
    by rewrite IH.
  - by rewrite join_cons, IH.
Qed.

Lemma split_length (sep : ascii) (s : string) :
  length (split sep s) = S (count_char sep s).
Proof.
  induction s as [|c s IH]; [done|]. simpl.
  destruct (split_cons sep s) as (h & t & E). rewrite E in *.
  destruct (Ascii.eqb c sep); simpl in *; lia.
Qed.

(** The pieces of a split are made of characters of the string, and the
    separator is not among them. *)
Lemma split_chars (sep : ascii) (s : string) :
  Forall (fun piece => forall a, In a (list_ascii_of_string piece) ->
                                 a <> sep /\ In a (list_ascii_of_string s))
         (split sep s).
Proof.
  induction s as [|c s IH]; simpl.
  - constructor; [|constructor]. by intros a [].
  - destruct (split_cons sep s) as (h & t & E). rewrite E in *.
    inversion IH as [|? ? Hh Ht]; subst.
    destruct (Ascii.eqb_spec c sep) as [->|Hne].
    + constructor; [by intros a []|]. constructor.
      * intros a Ha. destruct (Hh a Ha). by split; [|right].
      * eapply Forall_impl; [exact Ht|]. simpl. intros p Hp a Ha.
        destruct (Hp a Ha). by split; [|right].
    + constructor.
      * intros a [<-|Ha]; [by split; [|left]|].
        destruct (Hh a Ha). by split; [|right].
      * eapply Forall_impl; [exact Ht|]. simpl. intros p Hp a Ha.
        destruct (Hp a Ha). by split; [|right].
Qed.

Lemma present_filled (r : list string) (k : nat) :
  present (map Some r ++ replicate k None) = r.
Proof.
  unfold present. induction r as [|x r IH]; simpl.
  - induction k as [|k IHk]; [done|]. simpl. exact IHk.
  - f_equal. exact IH.
Qed.

Lemma width_bound (rows : list (list string)) (r : list string) :
  r ∈ rows -> (length r <= foldr (fun r w => Nat.max (length r) w) 0 rows)%nat.
Proof.
  induction rows as [|x rows IH]; [by intros ?%elem_of_nil|].
  intros [->|Hin]%elem_of_cons; simpl; [lia|]. specialize (IH Hin). lia.
Qed.

(** X1. The text comes back from the table: joining the string cells of each
    row with commas and the rows with newlines gives the response. *)
Theorem format_result_lossless (response : string) :
  join newline (map (fun row => join "," (present row)) (_format_result response))
  = response.
Proof.
  unfold _format_result, data_frame. rewrite !map_map.
  rewrite (map_ext _ (fun line => line)).
  - rewrite map_id. apply join_split.
  - intros line. by rewrite present_filled, join_split.
Qed.

(** X2. The table has one row per line of the response, that is one more than
    the response has newlines (a single row with one empty cell for the
    empty response), and every row has the same number of cells: one more
    than the largest number of commas in a line. *)
Theorem format_result_shape (response : string) :
  length (_format_result response) = S (count_char newline response)
  /\ _format_result "" = [[Some ""]]
  /\ exists width,
       Forall (fun row => length row = width) (_format_result response)
       /\ Exists (fun line => width = S (count_char "," line)) (split newline response)
       /\ Forall (fun line => (count_char "," line < width)%nat) (split newline response).
Proof.
  split; [|split; [reflexivity|]].
  - unfold _format_result, data_frame. by rewrite !length_map, split_length.
  - unfold _format_result, data_frame, newline.
    set (rows := map (split ",") (split "010" response)).
    set (width := foldr (fun r w => Nat.max (length r) w) 0%nat rows).
    exists width. split; [|split].
    + apply Forall_map, Forall_forall. intros r Hr.
      rewrite length_app, length_map, length_replicate.
      pose proof (width_bound rows r Hr) as Hb. fold width in Hb. lia.
    + subst width rows. destruct (split_cons "010" response) as (h & t & E).
      rewrite E. clear E. revert h. induction t as [|x t IH]; intros h.
      * simpl. constructor. rewrite split_length. lia.
      * simpl. simpl in IH. specialize (IH x).
        destruct (Nat.max_spec (length (split "," h))
                    (Nat.max (length (split "," x))
                       (foldr (fun r w => Nat.max (length r) w) 0%nat (map (split ",") t))))
          as [[_ ->]|[_ ->]].
        -- by constructor 2.
        -- constructor. by rewrite split_length.
    + apply Forall_forall. intros line Hl.
      assert (Hin : split "," line ∈ rows) by (by apply list_elem_of_fmap_2).
      pose proof (width_bound rows _ Hin) as Hb. fold width in Hb.
      rewrite split_length in Hb. lia.
Qed.

(** X3. No cell holds a comma or a newline, and every character of a cell is a
    character of the response: nothing is added or converted. *)
Theorem format_result_cells (response : string) :
  Forall (fun row =>
            Forall (fun cell => forall a, In a (list_ascii_of_string cell) ->
                                  a <> ","%char /\ a <> newline
                                  /\ In a (list_ascii_of_string response))
                   (present row))
         (_format_result response).
Proof.
  unfold _format_result, data_frame. apply Forall_map, Forall_map.
  pose proof (split_chars newline response) as Hlines.
  eapply Forall_impl; [exact Hlines|]. simpl. intros line Hline.
  rewrite present_filled.
  eapply Forall_impl; [exact (split_chars "," line)|]. simpl.
  intros cell Hcell a Ha. destruct (Hcell a Ha) as [Hc Hin].
  destruct (Hline a Hin) as [Hn Hr]. done.
Qed.

(** *** [get_enum_from_url] *)

Section Enumerations.

Variable net : list string -> string -> exn + response.

Lemma collect_missing (key : string) (recs : list record) :
  forall acc (r : record), r ∈ recs -> r !! key = None ->
  collect key recs acc = inl (KeyError key).
Proof.
  induction recs as [|x recs IH]; intros acc r Hin Hr; [by apply elem_of_nil in Hin|].
  simpl. destruct (x !! key) as [v|] eqn:E; [|done].
  apply elem_of_cons in Hin as [->|Hin]; [congruence|]. by apply (IH _ r).
Qed.

(** X4. One record without the key fails the whole lookup with [KeyError]: the
    request has been made, the values read so far are dropped and nothing
    is stored. *)
Theorem lookup_missing_key (url key : string) (w : world)
    (resp : response) (recs : list record) (r : record) :
  enum_cache w !! (url, key) = None ->
  net (fetch_log w) url = inr resp ->
  resp_json resp = inr recs ->
  r ∈ recs -> r !! key = None ->
  get_enum_from_url net url key w
  = (inl (KeyError key), World (fetch_log w ++ [url])%list (enum_cache w)).
Proof.
  intros Hmiss Hn Hj Hin Hr.
  rewrite (CollatorSpec.lookup_miss net _ _ _ Hmiss). cbv zeta.
  by rewrite Hn, Hj, (collect_missing key recs [] r Hin Hr).
Qed.

(** X5. A run of lookups only appends to the request log, at most one request
    per lookup and only for urls that were looked up; a run over pairs that
    all are in the memo table requests nothing and changes nothing. *)
Theorem lookups_request_bound (ls : list (string * string)) : forall w : world,
  (exists extra,
      fetch_log (after_lookups net ls w) = (fetch_log w ++ extra)%list
      /\ (length extra <= length ls)%nat
      /\ Forall (fun url => url ∈ map fst ls) extra)
  /\ (Forall (fun p => is_Some (enum_cache w !! p)) ls -> after_lookups net ls w = w).
Proof.
  induction ls as [|[url key] ls IH]; intros w; simpl.
  - split; [|done]. exists []. by rewrite app_nil_r.
  - destruct (IH (snd (get_enum_from_url net url key w))) as [(extra & Hl & Hlen & Hin) Hall].
    split.
    + destruct (enum_cache w !! (url, key)) as [v|] eqn:E.
      * rewrite (CollatorSpec.lookup_hit net _ _ _ _ E) in *. simpl in *.
        exists extra. split; [done|]. split; [lia|].
        eapply Forall_impl; [exact Hin|]. simpl. intros u Hu. by apply elem_of_cons; right.
      * rewrite Hl, (CollatorSpec.lookup_miss_log net _ _ _ E).
        exists (url :: extra). rewrite <- app_assoc. split; [done|]. split; [simpl; lia|].
        constructor; [by apply elem_of_cons; left|].
        eapply Forall_impl; [exact Hin|]. simpl. intros u Hu. by apply elem_of_cons; right.
    + intros HF. inversion HF as [|? ? [v Hv] HF']; subst.
      rewrite (CollatorSpec.lookup_hit net _ _ _ _ Hv) in *. simpl in *. by apply Hall.
Qed.

(** X6. The class body stops at the first endpoint that fails: when the request
    for the classifiers fails, the import fails with that error and the
    problems are never requested. *)
Theorem class_body_stops_at_first_failure (w : world) (e : exn) :
  enum_cache w !! (CLASSIFIERS_REQUEST_URL, "Acronym") = None ->
  net (fetch_log w) CLASSIFIERS_REQUEST_URL = inl e ->
  class_body net w
  = (inl e, World (fetch_log w ++ [CLASSIFIERS_REQUEST_URL])%list (enum_cache w)).
Proof.
  intros Hmiss Hn. unfold class_body, mbind, M_bind, bind.
  rewrite (CollatorSpec.lookup_miss net _ _ _ Hmiss). cbv zeta. by rewrite Hn.
Qed.

(** Whatever the endpoints serve, the class body leaves the same two
    toolkits, two metrics and trusted domain. *)
Lemma class_body_constants (w w' : world) (K : class_consts) :
  class_body net w = (inr K, w') ->
  VALID_TOOLKITS K = [PStr "sktime"; PStr "tsml"]
  /\ VALID_METRICS K = [PStr "accuracy"; PStr "f1"]
  /\ VALID_DOMAIN K = "https://timeseriesclassification.com".
Proof.
  unfold class_body, mbind, M_bind, bind, mret, M_ret, ret.
  destruct (get_enum_from_url net CLASSIFIERS_REQUEST_URL "Acronym" w) as [[e|cs] wa]; [done|].
  destruct (get_enum_from_url net PROBLEM_REQUEST_URL "Dataset" wa) as [[e|ps] wb]; [done|].
  by intros [= <- <-].
Qed.

End Enumerations.

(** *** [_check_valid_parameters] *)

Lemma check_passes (vs : list pyval) (n : string) (v : pyval) :
  check vs n v = inr tt <-> v <> PNone /\ py_in v vs = true.
Proof.
  unfold check. destruct v; simpl;
    try (destruct (py_in _ vs); simpl; split; [by intros _ | by intros _ | done | by intros [_ ?]]).
  split; [done | by intros [? _]].
Qed.

(** X7. In a list the first value that is [None] or outside the reference list
    decides the error; what comes after it is not looked at. *)
Theorem first_offender_decides (vs : list pyval) (n : string)
    (good : list pyval) (bad : pyval) (rest : list pyval) :
  Forall (fun v => v <> PNone /\ py_in v vs = true) good ->
  bad = PNone \/ py_in bad vs = false ->
  _check_valid_parameters (PList (good ++ bad :: rest)) vs n
  = inl (TypeError (match bad with
                    | PNone => msg_none n
                    | _ => msg_invalid n bad vs
                    end)).
Proof.
  intros Hgood Hbad. simpl.
  assert (H : check_each vs n (good ++ bad :: rest)
              = inl (TypeError (match bad with
                                | PNone => msg_none n
                                | _ => msg_invalid n bad vs
                                end))).
  { induction Hgood as [|v good Hv _ IH]; simpl.
    - destruct Hbad as [->|Hb]; [done|]. unfold check. rewrite Hb. by destruct bad.
    - by rewrite (proj2 (check_passes vs n v) Hv). }
  by rewrite H.
Qed.

Lemma check_result_shape (v : pyval) (vs : list pyval) (n : string) (r : pyval) :
  _check_valid_parameters v vs n = inr r ->
  (v = PStr "*" /\ r = PList vs) \/ r = v.
Proof.
  destruct v as [ | b | z | s | vals]; unfold _check_valid_parameters; try done.
  - destruct (String.eqb_spec s "*") as [->|Hne].
    + intros [= <-]. by left.
    + destruct (check vs n (PStr s)) as [e|[]]; [done|]. intros [= <-]. by right.
  - destruct (check_each vs n vals) as [e|[]]; [done|]. intros [= <-]. by right.
Qed.

(** X8. What the method returns is the input itself, or the whole reference
    list for the bare wildcard, and it returns only when the value, or
    every value of the list, is in the reference list and not [None]; a
    wildcard inside a list is a value like any other. *)
Theorem check_returns_only_valid (v : pyval) (vs : list pyval) (n : string) (r : pyval) :
  _check_valid_parameters v vs n = inr r ->
  (v = PStr "*" /\ r = PList vs)
  \/ (r = v
      /\ ((exists s, v = PStr s /\ s <> "*" /\ py_in v vs = true)
          \/ (exists vals, v = PList vals
                /\ Forall (fun x => x <> PNone /\ py_in x vs = true) vals))).
Proof.
  destruct v as [ | b | z | s | vals]; unfold _check_valid_parameters; try done.
  - destruct (String.eqb_spec s "*") as [->|Hne].
    + intros [= <-]. by left.
    + destruct (check vs n (PStr s)) as [e|[]] eqn:E; [done|]. intros [= <-].
      right. split; [done|]. left. exists s. by apply (check_passes vs n) in E as [_ ?].
  - destruct (check_each vs n vals) as [e|[]] eqn:E; [done|]. intros [= <-].
    right. split; [done|]. right. exists vals. split; [done|].
    induction vals as [|x vals IH]; [constructor|]. simpl in E.
    destruct (check vs n x) as [e|[]] eqn:Ex; [done|].
    constructor; [by apply (check_passes vs n)|by apply IH].
Qed.

(** *** [get_results] *)

Section Validation.

Variable net : list string -> string -> exn + response.

Lemma trusted_urls_pass (K : class_consts) (us : list string) :
  Forall (fun u => str_contains (VALID_DOMAIN K) u = true) us ->
  url_violation K us = None.
Proof.
  unfold url_violation. induction 1 as [|u us Hu _ IH]; [done|]. simpl.
  rewrite Hu. simpl. exact IH.
Qed.

(** X12. A collator built with the defaults on urls of the trusted domain passes
    every check, whatever the two enumerations hold (even nothing): the
    wildcards stand for all classifiers and all problems, which is what the
    object keeps, and the toolkit stays [sktime]. *)
Theorem defaults_pass_validation (w0 w1 w : world) (K : class_consts) (us : list string) :
  class_body net w0 = (inr K, w1) ->
  Forall (fun u => str_contains "https://timeseriesclassification.com" u = true) us ->
  first_violation K (__init__ us None None None None None) = None
  /\ exists c',
       get_results net K (State (__init__ us None None None None None) w)
       = ResultCollator_get_results net (State c' w)
       /\ _classifiers c' = PList (VALID_CLASSIFIERS K)
       /\ _problem_list c' = PList (VALID_PROBLEMS K)
       /\ toolkit c' = PStr "sktime".
Proof.
  intros HK Hus.
  destruct (class_body_constants net _ _ _ HK) as (Ht & Hm & Hd).
  assert (Hu : url_violation K us = None) by (apply trusted_urls_pass; by rewrite Hd).
  split.
  - unfold first_violation, violations, parameter_violation, resamples_violation.
    simpl. rewrite Hu, Ht, Hm. reflexivity.
  - rewrite CollatorSpec.get_results_run. simpl. rewrite Hu, Ht, Hm. simpl.
    eexists. split; [reflexivity|]. done.
Qed.

(** X13. A call that passed every check can be made again: the toolkit the call
    wrote back (the list of both toolkits when it was the wildcard) passes
    the checks as well. *)
Theorem validated_object_validates_again (w0 w1 w : world) (K : class_consts) (c : collator) :
  class_body net w0 = (inr K, w1) ->
  first_violation K c = None ->
  exists c',
    get_results net K (State c w) = ResultCollator_get_results net (State c' w)
    /\ first_violation K c' = None
    /\ (toolkit c = PStr "*" -> toolkit c' = PList [PStr "sktime"; PStr "tsml"]).
Proof.
  intros HK.
  destruct (class_body_constants net _ _ _ HK) as (Ht & _ & _).
  rewrite CollatorSpec.get_results_run.
  unfold first_violation, violations, first_some, parameter_violation, resamples_violation.
  destruct (url_violation K (urls c)) as [e|] eqn:Eu; [done|].
  destruct (_check_valid_parameters (classifiers c) _ _) as [e|vc] eqn:Ec; [done|].
  destruct (_check_valid_parameters (problem_list c) _ _) as [e|vp] eqn:Ep; [done|].
  destruct (_check_valid_parameters (metric c) _ _) as [e|vm] eqn:Em; [done|].
  destruct ((resamples c <? 1) || (resamples c >? 30)) eqn:Er; [done|].
  destruct (_check_valid_parameters (toolkit c) _ _) as [e|vt] eqn:Et; [done|].
  intros _. cbv zeta. eexists. split; [reflexivity|]. simpl.
  rewrite Eu, Ec, Ep, Em, Er.
  destruct (check_result_shape _ _ _ _ Et) as [[Hs ->]| ->].
  - rewrite Ht. split; [reflexivity|done].
  - rewrite Et. split; [done|]. intros Hs. rewrite Hs in Et. simpl in Et.
    injection Et as Et. by rewrite Ht in Et.
Qed.

(** X14. A call that is refused never changes the six parameters the collator
    was built with; but it is not undone: once the urls and the classifiers
    have passed, the validated classifiers stay written in [_classifiers]
    whatever check fails later. *)
Theorem refused_call_keeps_parameters (K : class_consts) (c : collator) (w : world) (e : exn) :
  first_violation K c = Some e ->
  let c' := self (snd (get_results net K (State c w))) in
  urls c' = urls c /\ classifiers c' = classifiers c
  /\ problem_list c' = problem_list c /\ metric c' = metric c
  /\ resamples c' = resamples c /\ toolkit c' = toolkit c
  /\ (forall vc,
        url_violation K (urls c) = None ->
        _check_valid_parameters (classifiers c) (VALID_CLASSIFIERS K) "classifier" = inr vc ->
        _classifiers c' = vc).
Proof.
  cbv zeta. rewrite CollatorSpec.get_results_run.
  unfold first_violation, violations, first_some, parameter_violation, resamples_violation.
  destruct (url_violation K (urls c)) as [e0|]; [by intros _|].
  destruct (_check_valid_parameters (classifiers c) _ _) as [e0|vc]; [by intros _|].
  destruct (_check_valid_parameters (problem_list c) _ _) as [e0|vp];
    [intros _; simpl; repeat (split; [done|]); by intros ? _ [= <-]|].
  destruct (_check_valid_parameters (metric c) _ _) as [e0|vm];
    [intros _; simpl; repeat (split; [done|]); by intros ? _ [= <-]|].
  destruct ((resamples c <? 1) || (resamples c >? 30));
    [intros _; simpl; repeat (split; [done|]); by intros ? _ [= <-]|].
  destruct (_check_valid_parameters (toolkit c) _ _) as [e0|vt];
    [intros _; simpl; repeat (split; [done|]); by intros ? _ [= <-]|].
  done.
Qed.

End Validation.

Lemma lookup_missing_key_witness :
  get_enum_from_url demo_net CLASSIFIERS_REQUEST_URL "Year" world0
  = (inl (KeyError "Year"), World [CLASSIFIERS_REQUEST_URL] ∅).
Proof.
  refine (lookup_missing_key demo_net CLASSIFIERS_REQUEST_URL "Year" world0 _ _
            {[ "Acronym" := PStr "ROCKET" ]} eq_refl eq_refl eq_refl _ eq_refl).
  apply elem_of_cons. right. apply elem_of_cons. by left.
Defined.

Lemma lookups_request_bound_witness :
  after_lookups demo_net
    [(CLASSIFIERS_REQUEST_URL, "Acronym"); (CLASSIFIERS_REQUEST_URL, "Acronym")]
    (snd (get_enum_from_url demo_net CLASSIFIERS_REQUEST_URL "Acronym" world0))
  = snd (get_enum_from_url demo_net CLASSIFIERS_REQUEST_URL "Acronym" world0).
Proof.
  apply (proj2 (lookups_request_bound demo_net _ _)).
  repeat constructor; by eexists.
Defined.

Lemma class_body_stops_at_first_failure_witness :
  class_body flaky_net world0
  = (inl (OtherError "timed out"), World [CLASSIFIERS_REQUEST_URL] ∅).
Proof.
  exact (class_body_stops_at_first_failure flaky_net world0 (OtherError "timed out")
           eq_refl eq_refl).
Defined.

Lemma first_offender_decides_witness :
  _check_valid_parameters (PList [PStr "HC2"; PStr "*"; PNone]) [PStr "HC2"; PStr "ROCKET"]
    "classifier"
  = inl (TypeError (msg_invalid "classifier" (PStr "*") [PStr "HC2"; PStr "ROCKET"])).
Proof.
  refine (first_offender_decides [PStr "HC2"; PStr "ROCKET"] "classifier"
            [PStr "HC2"] (PStr "*") [PNone] _ (or_intror eq_refl)).
  repeat constructor. discriminate.
Defined.

Lemma check_returns_only_valid_witness :
  (PList [PStr "tsml"] = PStr "*" /\ PList [PStr "tsml"] = PList [PStr "sktime"; PStr "tsml"])
  \/ (PList [PStr "tsml"] = PList [PStr "tsml"]
      /\ ((exists s, PList [PStr "tsml"] = PStr s /\ s <> "*"
                     /\ py_in (PList [PStr "tsml"]) [PStr "sktime"; PStr "tsml"] = true)
          \/ (exists vals, PList [PStr "tsml"] = PList vals
                /\ Forall (fun x => x <> PNone
                                    /\ py_in x [PStr "sktime"; PStr "tsml"] = true) vals))).
Proof.
  exact (check_returns_only_valid (PList [PStr "tsml"]) [PStr "sktime"; PStr "tsml"]
           "toolkit" (PList [PStr "tsml"]) eq_refl).
Defined.

Lemma defaults_pass_validation_witness :
  first_violation demo_consts default_collator = None.
Proof.
  refine (proj1 (defaults_pass_validation demo_net world0 _ world0 demo_consts
                   ["https://timeseriesclassification.com/results.csv"]
                   CollatorSpec.class_body_demo _)).
  repeat constructor.
Defined.

Lemma validated_object_validates_again_witness :
  exists c',
    get_results demo_net demo_consts (State any_toolkit_collator world0)
    = ResultCollator_get_results demo_net (State c' world0)
    /\ first_violation demo_consts c' = None
    /\ (toolkit any_toolkit_collator = PStr "*"
        -> toolkit c' = PList [PStr "sktime"; PStr "tsml"]).
Proof.
  exact (validated_object_validates_again demo_net world0 _ world0 demo_consts
           any_toolkit_collator CollatorSpec.class_body_demo eq_refl).
Defined.

Lemma none_element_refused_witness :
  exists e,
    _check_valid_parameters (PList [PStr "HC2"; PNone]) [PStr "HC2"; PStr "ROCKET"] "classifier"
    = inl e
    /\ is_TypeError e = true /\ str_contains "classifier" (exn_msg e) = true.
Proof.
  refine (CollatorSpec.none_element_refused [PStr "HC2"; PStr "ROCKET"] "classifier"
            [PStr "HC2"; PNone] _).
  right. by left.
Defined.

Lemma unknown_value_refused_witness :
  _check_valid_parameters (PStr "Adiac") [PStr "GunPoint"; PStr "Coffee"] "problem"
  = inl (TypeError ("The parameter problem of value Adiac is invalid. "
                    ++ "Please use a value from ['GunPoint', 'Coffee']")).
Proof.
  refine (proj1 (CollatorSpec.unknown_value_refused [PStr "GunPoint"; PStr "Coffee"]
                   "problem" "Adiac" _ eq_refl)).
  discriminate.
Defined.

Lemma known_values_returned_witness :
  _check_valid_parameters (PList [PStr "ROCKET"; PStr "HC2"; PStr "ROCKET"])
    [PStr "HC2"; PStr "ROCKET"] "classifier"
  = inr (PList [PStr "ROCKET"; PStr "HC2"; PStr "ROCKET"]).
Proof.
  refine (CollatorSpec.known_values_returned [PStr "HC2"; PStr "ROCKET"] "classifier"
            [PStr "ROCKET"; PStr "HC2"; PStr "ROCKET"] _).
  repeat constructor; discriminate.
Defined.

Lemma refused_call_keeps_parameters_witness :
  classifiers (self (snd (get_results demo_net demo_consts
                            (State unknown_problem_collator world0))))
  = PList [PStr "ROCKET"]
  /\ _classifiers (self (snd (get_results demo_net demo_consts
                                (State unknown_problem_collator world0))))
     = PList [PStr "ROCKET"]
  /\ _problem_list (self (snd (get_results demo_net demo_consts
                                 (State unknown_problem_collator world0))))
     = PList [].
Proof.
  destruct (refused_call_keeps_parameters demo_net demo_consts unknown_problem_collator world0
              (TypeError (msg_invalid "problem" (PStr "Adiac") (VALID_PROBLEMS demo_consts)))
              eq_refl) as (_ & Hc & _ & _ & _ & _ & Hp).
  split; [exact Hc|]. split; [exact (Hp _ eq_refl eq_refl)|]. reflexivity.
Defined.

End CollatorMore.

(* ===================================================================== *)
(** ** More on the aligner adapters                                        *)
(* ===================================================================== *)

Module AlignerMore.
Import Aligner.

Section Fits.

Context {num : Type}.
Variable zero : num.
Variable dtw : dtw_args num -> exn + dtw_result num.
Variable BaseAligner___init__ : M (state num) unit.

Ltac run_fit :=
  unfold AlignerDTW__fit, AlignerDTWdist__fit, mbind, M_bind, bind, attr, lift,
    assign, modify, call_dtw, raise, mret, M_ret, ret, item.

(** X15. A fit that returns has called the engine exactly once, asking it to
    keep its internals, and the object holds the result of that call and
    the sequences of this fit, whatever it held before; there were at least
    two sequences. *)
Theorem fit_stores_engine_result :
  (forall Xs (s s' : state num),
      AlignerDTW__fit dtw Xs s = (inr tt, s') ->
      exists args r,
        dtw_calls s' = (dtw_calls s ++ [args])%list /\ dtw args = inr r
        /\ arg_keep_internals args = true
        /\ alignment (self s') = Some r /\ X (self s') = Some Xs
        /\ (2 <= length Xs)%nat)
  /\ (forall Xs (s s' : state num),
        AlignerDTWdist__fit dtw Xs s = (inr tt, s') ->
        exists args r,
          dtw_calls s' = (dtw_calls s ++ [args])%list /\ dtw args = inr r
          /\ arg_keep_internals args = true
          /\ arg_y args = None /\ arg_dist_method args = None
          /\ alignment (self s') = Some r /\ X (self s') = Some Xs
          /\ (2 <= length Xs)%nat).
Proof.
  split; intros Xs s s'; run_fit; intros H;
    repeat (case_match; simplify_eq/=; try done);
    eexists _, _; repeat (split; [done || eassumption|]);
    destruct Xs as [|? [|? ?]]; simplify_eq/=; lia.
Qed.

(** X16. A fit that raises leaves the object as it was, so that an alignment
    kept from an earlier fit stays the one the queries return; the engine
    has been called at most once, and then it is the engine that raised. *)
Theorem failed_fit_keeps_object :
  (forall Xs (s s' : state num) e,
      AlignerDTW__fit dtw Xs s = (inl e, s') ->
      self s' = self s
      /\ (dtw_calls s' = dtw_calls s
          \/ exists args, dtw_calls s' = (dtw_calls s ++ [args])%list /\ dtw args = inl e))
  /\ (forall Xs (s s' : state num) e,
        AlignerDTWdist__fit dtw Xs s = (inl e, s') ->
        self s' = self s
        /\ (dtw_calls s' = dtw_calls s
            \/ exists args, dtw_calls s' = (dtw_calls s ++ [args])%list /\ dtw args = inl e)).
Proof.
  split; intros Xs s s' e; run_fit; intros H;
    repeat (case_match; simplify_eq/=; try done);
    (split; [done|]); (by left) || (right; by eexists).
Qed.

(** [AlignerDTW._fit] on a configured object and at least two sequences. *)
Lemma vector_fit_run_all (cfg : dtw_config) (a : aligner num) calls
    (X1 X2 : data_frame num) (rest : list (data_frame num)) :
  let s := State (configure cfg a) calls in
  AlignerDTW__fit dtw (X1 :: X2 :: rest) s =
  match (match cfg_variable_to_align cfg with
         | PNone => first_column X1
         | v => inr v
         end) with
  | inl e => (inl e, s)
  | inr var =>
      if negb (has_column var X1)
      then (inl (ValueError (msg_no_variable "X[0]" var)), s)
      else if negb (has_column var X2)
      then (inl (ValueError (msg_no_variable "X[1]" var)), s)
      else
        match column_values X1 var with
        | inl e => (inl e, s)
        | inr v1 =>
        match column_values X2 var with
        | inl e => (inl e, s)
        | inr v2 =>
            let args := DtwArgs v1 (Some v2) (Some (cfg_dist_method cfg))
                          (cfg_step_pattern cfg) (cfg_window_type cfg)
                          (cfg_open_begin cfg) (cfg_open_end cfg) true in
            match dtw args with
            | inl e => (inl e, State (configure cfg a) (calls ++ [args])%list)
            | inr r =>
                (inr tt,
                 State (set_variable_to_align var
                          (set_X (X1 :: X2 :: rest) (set_alignment r (configure cfg a))))
                   (calls ++ [args])%list)
            end
        end end
  end.
Proof.
  cbv zeta. run_fit. simpl.
  destruct (cfg_variable_to_align cfg) eqn:Ev; simpl;
    try destruct (first_column X1) as [e|var]; simpl; try done;
    (destruct (has_column _ X1); simpl; [|done]);
    (destruct (has_column _ X2); simpl; [|done]);
    (destruct (column_values X1 _); simpl; [done|]);
    (destruct (column_values X2 _); simpl; [done|]);
    by destruct (dtw _).
Qed.

(** [AlignerDTWdist._fit] on a configured object and at least two sequences. *)
Lemma matrix_fit_run_all (cfg : dist_config num) (f : trafo num) (a : aligner num) calls
    (X1 X2 : data_frame num) (rest : list (data_frame num)) :
  let s := State (configure_dist cfg f a) calls in
  AlignerDTWdist__fit dtw (X1 :: X2 :: rest) s =
  match f X1 X2 with
  | inl e => (inl e, s)
  | inr distmat =>
      let args := DtwArgs distmat None None (dcfg_step_pattern cfg)
                    (dcfg_window_type cfg) (dcfg_open_begin cfg) (dcfg_open_end cfg) true in
      match dtw args with
      | inl e => (inl e, State (configure_dist cfg f a) (calls ++ [args])%list)
      | inr r =>
          (inr tt,
           State (set_X (X1 :: X2 :: rest) (set_alignment r (configure_dist cfg f a)))
             (calls ++ [args])%list)
      end
  end.
Proof.
  cbv zeta. run_fit. simpl.
  destruct (f X1 X2); simpl; [done|]. by destruct (dtw _).
Qed.

(** X17. Only the first two sequences are aligned: on the same object, a fit on
    more sequences raises or returns as the fit on the first two, with the
    same call of the engine and the same alignment; the further sequences
    are only kept in [X].  With fewer than two sequences a fit raises
    [IndexError] and the engine is not called. *)
Theorem fit_aligns_first_two_only (cfg : dtw_config) (a : aligner num)
    (calls : list (dtw_args num)) (X1 X2 : data_frame num) (rest : list (data_frame num)) :
  let s := State (configure cfg a) calls in
  let two := AlignerDTW__fit dtw [X1; X2] s in
  let more := AlignerDTW__fit dtw (X1 :: X2 :: rest) s in
  fst more = fst two
  /\ dtw_calls (snd more) = dtw_calls (snd two)
  /\ alignment (self (snd more)) = alignment (self (snd two))
  /\ (fst more = inr tt -> X (self (snd more)) = Some (X1 :: X2 :: rest))
  /\ AlignerDTW__fit dtw [X1] s = (inl (IndexError "list index out of range"), s)
  /\ AlignerDTW__fit dtw [] s = (inl (IndexError "list index out of range"), s).
Proof.
  cbv zeta. rewrite (vector_fit_run_all cfg a calls X1 X2 rest).
  rewrite (vector_fit_run_all cfg a calls X1 X2 []). cbv zeta.
  split; [|split; [|split; [|split; [|split; reflexivity]]]];
    (destruct (match cfg_variable_to_align cfg with PNone => first_column X1 | v => inr v end)
       as [e|var]; [done|]);
    (destruct (has_column var X1); simpl; [|done]);
    (destruct (has_column var X2); simpl; [|done]);
    (destruct (column_values X1 var); [done|]);
    (destruct (column_values X2 var); [done|]);
    by destruct (dtw _).
Qed.

(** X18. The default column is resolved once. After a fit that returned on an
    object built with the defaults, [variable_to_align] is the label of the
    first column of that fit's [X[0]].  When that label is not [None], a
    later fit on sequences whose first sequence has no column of that label
    is refused, whatever columns the new sequences share. *)
Theorem default_column_sticks (a : aligner num) (calls : list (dtw_args num))
    (label : pyval) (vals1 : list num) (rest1 X2 : data_frame num) (s' : state num) :
  AlignerDTW__fit dtw [(label, vals1) :: rest1; X2] (State (configure dtw_defaults a) calls)
  = (inr tt, s') ->
  variable_to_align (self s') = Some label
  /\ (label <> PNone ->
      forall Y1 Y2 : data_frame num,
        has_column label Y1 = false ->
        AlignerDTW__fit dtw [Y1; Y2] s'
        = (inl (ValueError ("X[0] does not have variable " ++ py_str label
                            ++ " used for alignment")), s')).
Proof.
  intros Hfit. rewrite (vector_fit_run_all dtw_defaults a calls _ X2 []) in Hfit.
  cbv zeta in Hfit. simpl in Hfit. rewrite PyFacts.py_eqb_refl in Hfit. simpl in Hfit.
  destruct (has_column label X2); simpl in Hfit; [|done].
  destruct (column_values ((label, vals1) :: rest1) label); [done|].
  destruct (column_values X2 label); [done|].
  destruct (dtw _) as [e|r]; [done|].
  injection Hfit as <-. split; [done|]. intros Hl Y1 Y2 HY.
  match goal with |- AlignerDTW__fit dtw _ (State ?o ?c) = _ =>
    change o with (configure (DtwConfig (PStr "euclidean") (PStr "symmetric2") (PStr "none")
                                (PBool false) (PBool false) label)
                     (set_X [(label, vals1) :: rest1; X2] (set_alignment r a)))
  end.
  rewrite (vector_fit_run_all _ _ _ Y1 Y2 []). cbv zeta. simpl cfg_variable_to_align.
  destruct label; try done; by rewrite HY.
Qed.

(** X19. The distance-matrix variant hands the two whole sequences to the
    transformer: if that raises, the error is passed on, the engine is not
    called and the object is unchanged; otherwise the engine is called
    once, on the matrix alone (no second array, no distance method), with
    the four options of the object and the request to keep its internals. *)
Theorem matrix_fit_delegates (cfg : dist_config num) (f : trafo num) (a : aligner num)
    (calls : list (dtw_args num)) (X1 X2 : data_frame num) (rest : list (data_frame num)) :
  let s := State (configure_dist cfg f a) calls in
  let r := AlignerDTWdist__fit dtw (X1 :: X2 :: rest) s in
  match f X1 X2 with
  | inl e => r = (inl e, s)
  | inr distmat =>
      let args := DtwArgs distmat None None (dcfg_step_pattern cfg)
                    (dcfg_window_type cfg) (dcfg_open_begin cfg) (dcfg_open_end cfg) true in
      dtw_calls (snd r) = (calls ++ [args])%list
      /\ (forall e, dtw args = inl e -> fst r = inl e /\ self (snd r) = configure_dist cfg f a)
      /\ (forall res, dtw args = inr res ->
            fst r = inr tt
            /\ alignment (self (snd r)) = Some res
            /\ X (self (snd r)) = Some (X1 :: X2 :: rest)
            /\ dist_trafo (self (snd r)) = Some f)
  end.
Proof.
  cbv zeta. rewrite matrix_fit_run_all. cbv zeta.
  destruct (f X1 X2) as [e|m]; [done|].
  destruct (dtw _) as [e|res]; simpl.
  - split; [done|]. split; [by intros ? [= <-]|done].
  - split; [done|]. split; [done|]. by intros ? [= <-].
Qed.

(** X20. The three queries of either class only read: they leave the object and
    the record of engine calls as they are, and on an object that has no
    alignment yet they raise [AttributeError]. *)
Theorem queries_only_read (s : state num) :
  snd (AlignerDTW_get_alignment s) = s
  /\ snd (AlignerDTW_get_distance s) = s
  /\ snd (AlignerDTW_get_distance_matrix zero s) = s
  /\ snd (AlignerDTWdist_get_alignment s) = s
  /\ snd (AlignerDTWdist_get_distance s) = s
  /\ snd (AlignerDTWdist_get_distance_matrix zero s) = s
  /\ (alignment (self s) = None ->
      fst (AlignerDTW_get_alignment s) = inl (AttributeError "alignment")
      /\ fst (AlignerDTW_get_distance s) = inl (AttributeError "alignment")
      /\ fst (AlignerDTW_get_distance_matrix zero s) = inl (AttributeError "alignment")
      /\ fst (AlignerDTWdist_get_alignment s) = inl (AttributeError "alignment")
      /\ fst (AlignerDTWdist_get_distance s) = inl (AttributeError "alignment")
      /\ fst (AlignerDTWdist_get_distance_matrix zero s) = inl (AttributeError "alignment")).
Proof.
  unfold AlignerDTW_get_alignment, AlignerDTW_get_distance, AlignerDTW_get_distance_matrix,
    AlignerDTWdist_get_alignment, AlignerDTWdist_get_distance,
    AlignerDTWdist_get_distance_matrix, mbind, M_bind, bind, attr, lift, mret, M_ret, ret.
  destruct (alignment (self s)) as [r|] eqn:E; simpl; rewrite ?E; simpl.
  - by destruct (align_frame _ _).
  - done.
Qed.

(** X21. A matrix aligner that has just been constructed has no alignment: a
    query made before any fit raises [AttributeError], when the base
    constructor sets none. *)
Theorem query_before_fit_raises (cfg : dist_config num) (f : trafo num) (s s1 : state num) :
  dcfg_dist_trafo cfg = Some f ->
  BaseAligner___init__ (State blank (dtw_calls s)) = (inr tt, s1) ->
  alignment (self s1) = None ->
  exists s',
    new_AlignerDTWdist BaseAligner___init__ cfg s = (inr tt, s')
    /\ (new_AlignerDTWdist BaseAligner___init__ cfg;; AlignerDTWdist_get_distance) s
       = (inl (AttributeError "alignment"), s')
    /\ (new_AlignerDTWdist BaseAligner___init__ cfg;; AlignerDTWdist_get_alignment) s
       = (inl (AttributeError "alignment"), s')
    /\ (new_AlignerDTWdist BaseAligner___init__ cfg;; AlignerDTWdist_get_distance_matrix zero) s
       = (inl (AttributeError "alignment"), s').
Proof.
  intros Hf Hb Ha.
  unfold new_AlignerDTWdist, AlignerDTWdist___init__, super_init,
    AlignerDTWdist_get_distance, AlignerDTWdist_get_alignment,
    AlignerDTWdist_get_distance_matrix, mbind, M_bind, bind, assign, modify, attr.
  simpl. rewrite Hb, Hf. simpl. rewrite Ha. eexists. done.
Qed.

End Fits.

Lemma fit_stores_engine_result_witness :
  exists s' args r,
    AlignerDTW__fit lockstep_dtw [seq_ab; seq_ba] (State (configure dtw_defaults blank) [])
    = (inr tt, s')
    /\ dtw_calls s' = [args] /\ lockstep_dtw args = inr r
    /\ alignment (self s') = Some r.
Proof.
  destruct (proj1 (fit_stores_engine_result lockstep_dtw) _ _ _ AlignerSpec.lockstep_demo)
    as (args & r & Hc & Hr & _ & Ha & _).
  eexists _, args, r. split; [exact AlignerSpec.lockstep_demo|].
  split; [exact Hc|]. split; [exact Hr | exact Ha].
Defined.

Lemma failed_fit_keeps_object_witness :
  alignment (self (snd (AlignerDTW__fit lockstep_dtw [seq_ab; seq_b] fitted_state)))
  = Some (DtwResult [0; 1; 2] [0; 1; 2] 2).
Proof.
  destruct (proj1 (failed_fit_keeps_object lockstep_dtw) [seq_ab; seq_b] fitted_state
              (snd (AlignerDTW__fit lockstep_dtw [seq_ab; seq_b] fitted_state))
              (ValueError "X[1] does not have variable a used for alignment") eq_refl)
    as [Hs _].
  rewrite Hs. reflexivity.
Defined.

Lemma default_column_sticks_witness :
  exists s',
    AlignerDTW__fit lockstep_dtw [seq_ab; seq_ba] (State (configure dtw_defaults blank) [])
    = (inr tt, s')
    /\ variable_to_align (self s') = Some (PStr "a")
    /\ AlignerDTW__fit lockstep_dtw [seq_b; seq_b] s'
       = (inl (ValueError "X[0] does not have variable a used for alignment"), s').
Proof.
  eexists. split; [exact AlignerSpec.lockstep_demo|].
  destruct (default_column_sticks lockstep_dtw blank [] (PStr "a") [1; 2; 4]
              [(PStr "b", [3; 3; 3])] seq_ba _ AlignerSpec.lockstep_demo) as [Hv Hr].
  split; [exact Hv|]. apply Hr; [discriminate | reflexivity].
Defined.

Lemma query_before_fit_raises_witness :
  exists s',
    new_AlignerDTWdist plain_init
      (DistConfig (Some unit_trafo) (PStr "symmetric2") (PStr "none")
         (PBool false) (PBool false)) (State blank [])
    = (inr tt, s')
    /\ (new_AlignerDTWdist plain_init
          (DistConfig (Some unit_trafo) (PStr "symmetric2") (PStr "none")
             (PBool false) (PBool false));;
        AlignerDTWdist_get_distance) (State blank [])
       = (inl (AttributeError "alignment"), s').
Proof.
  destruct (query_before_fit_raises 0 plain_init
              (DistConfig (Some unit_trafo) (PStr "symmetric2") (PStr "none")
                 (PBool false) (PBool false))
              unit_trafo (State blank []) (State blank []) eq_refl eq_refl eq_refl)
    as (s' & Hn & Hd & _).
  exists s'. split; [exact Hn | exact Hd].
Defined.

End AlignerMore.
